(** * cartesi-fix: the build pipeline and the run command

    A shallow embedding of [src/commands/build.mjs] and
    [src/commands/run.mjs].  Pure helpers (the stage command builders)
    are Rocq functions on strings and lists; the asynchronous functions
    that spawn [docker] and touch the file system are computations in a
    state-and-exception monad over an explicit [World]. *)

From Stdlib Require Import ZArith QArith Qround Ascii.
From stdpp Require Import gmap strings list pretty.

Open Scope Z_scope.

(** ** JavaScript values as the code uses them *)

Module Js.

(** Truthiness.  Strings are falsy only when empty; arrays and plain
    objects are always truthy, the empty ones too; [null] and
    [undefined] (modelled by [None]) are falsy. *)
Class Truthy (A : Type) := truthy : A → bool.

#[export] Instance truthy_string : Truthy string :=
  λ s, negb (String.eqb s "").
#[export] Instance truthy_array {A} : Truthy (list A) := λ _, true.
#[export] Instance truthy_object {V} : Truthy (gmap string V) := λ _, true.
#[export] Instance truthy_nullable {A} `{Truthy A} : Truthy (option A) :=
  λ o, match o with Some a => truthy a | None => false end.

(** [a ?? d]: [d] only when [a] is [null] or [undefined]. *)
Definition nullish {A} (a : option A) (d : A) : A :=
  match a with Some v => v | None => d end.

(** [a || d]: [d] whenever [a] is falsy. *)
Definition or {A} `{Truthy A} (a : option A) (d : A) : A :=
  match a with
  | Some v => if truthy v then v else d
  | None => d
  end.

(** [Array.prototype.join] on an array of strings. *)
Definition join (sep : string) (l : list string) : string :=
  String.concat sep l.

(** [Math.ceil] and [/] on numbers.  The quotients taken by the code
    are of integers by a power of two, which the floating-point
    division computes exactly, and the ceiling of a double is exact;
    they are modelled by rationals. *)
Definition Math_ceil (q : Q) : Z := Qceiling q.
Definition div (a b : Z) : Q := (inject_Z a / inject_Z b)%Q.

(** *** Integers as numbers

    A JavaScript number is a double.  The numbers this code computes
    with are integers; an integer is a double when its magnitude is
    [m * 2 ^ e] with [m < 2 ^ 53], and then [exponent] is that [e]
    for the largest such [m]. *)
Definition exponent (a : Z) : Z := Z.max 0 (Z.log2 a - 52).

Definition representable (z : Z) : bool :=
  (Z.abs z mod 2 ^ exponent (Z.abs z) =? 0) && (Z.abs z <? 2 ^ 1024).

Definition Number_MAX_SAFE_INTEGER : Z := 2 ^ 53 - 1.

(** The double nearest to an integer, ties going to the even
    significand: what an arithmetic operation returns when its exact
    result is [z] (the overflow to infinity, from 2 ^ 1024 on, is not
    modelled). *)
Definition nearest (z : Z) : Z :=
  let a := Z.abs z in
  let gap := 2 ^ exponent a in
  let q := a / gap in
  let r := a mod gap in
  let q' :=
    if 2 * r <? gap then q
    else if gap <? 2 * r then q + 1
    else if Z.even q then q else q + 1 in
  Z.sgn z * (q' * gap).

(** [a + b] on integers. *)
Definition add (a b : Z) : Z := nearest (a + b).

(** [Number.prototype.toString], which template interpolation
    applies, on an integer that is a double.  It prints the shortest
    decimal digits that read back as the same double: among the
    integers [v] that round to [a], one with the fewest significant
    digits, and of these the closest to [a].  The integers that round
    to [a] lie within half the gap to the next double on either side
    ([lo4] and [hi4] are four times the bounds), the bounds included
    when the significand of [a] is even. *)
Definition within (lo4 hi4 : Z) (inclusive : bool) (v : Z) : bool :=
  if inclusive then (lo4 <=? 4 * v) && (4 * v <=? hi4)
  else (lo4 <? 4 * v) && (4 * v <? hi4).

(** The candidates with [j] trailing zeros are the two multiples of
    [10 ^ j] around [a]; fewer digits are tried first. *)
Fixpoint shortest (j : nat) (a lo4 hi4 : Z) (inclusive : bool) : Z :=
  match j with
  | O => a
  | S j' =>
      let p := 10 ^ Z.of_nat j in
      let d := a / p * p in
      let u := d + p in
      let okd := (0 <? d) && within lo4 hi4 inclusive d in
      let oku := within lo4 hi4 inclusive u in
      if okd && oku then
        if 2 * (a - d) <? p then d
        else if p <? 2 * (a - d) then u
        else if Z.even (d / p) then d else u
      else if okd then d
      else if oku then u
      else shortest j' a lo4 hi4 inclusive
  end.

Definition digits (a : Z) : Z :=
  let e := exponent a in
  let gap := 2 ^ e in
  let lo4 := 4 * a - (if a =? 2 ^ (52 + e) then gap else 2 * gap) in
  let hi4 := 4 * a + 2 * gap in
  shortest (Z.to_nat (Z.log2 a / 3 + 1)) a lo4 hi4 (Z.even (a / gap)).

Fixpoint strip_zeros (fuel : nat) (v : Z) : Z :=
  match fuel with
  | O => v
  | S fuel' =>
      if (0 <? v) && (v mod 10 =? 0) then strip_zeros fuel' (v / 10) else v
  end.

(** Exponent notation, used from 10 ^ 21 on: the first digit, the
    other significant digits behind a point, and the exponent. *)
Definition scientific (v : Z) : string :=
  let s := pretty (strip_zeros (Z.to_nat (Z.log2 v)) v) in
  let n := Z.of_nat (String.length (pretty v)) in
  match s with
  | String c EmptyString => String c EmptyString
  | String c r => String c ("." +:+ r)
  | EmptyString => EmptyString
  end +:+ "e+" +:+ pretty (n - 1).

Definition Number_toString (z : Z) : string :=
  if z =? 0 then "0"
  else
    let v := digits (Z.abs z) in
    (if z <? 0 then "-" else "")
    +:+ (if v <? 10 ^ 21 then pretty v else scientific v).

End Js.

Import Js.

Infix "??" := Js.nullish (at level 45, left associativity).

(** ** Text helpers shared by the models of the two string libraries *)

Module Text.
Definition is_digit (c : ascii) : bool :=
  (48 <=? nat_of_ascii c)%nat && (nat_of_ascii c <=? 57)%nat.
Definition is_letter (c : ascii) : bool :=
  let n := nat_of_ascii c in
  ((65 <=? n)%nat && (n <=? 90)%nat) || ((97 <=? n)%nat && (n <=? 122)%nat).
Definition is_space (c : ascii) : bool :=
  let n := nat_of_ascii c in
  (n =? 32)%nat || ((9 <=? n)%nat && (n <=? 13)%nat).
Definition lower (c : ascii) : ascii :=
  let n := nat_of_ascii c in
  if (65 <=? n)%nat && (n <=? 90)%nat then ascii_of_nat (n + 32) else c.

Fixpoint all (p : ascii → bool) (s : string) : bool :=
  match s with
  | EmptyString => true
  | String c r => p c && all p r
  end.

(** The longest prefix whose characters satisfy [p], and the rest. *)
Fixpoint span (p : ascii → bool) (s : string) : string * string :=
  match s with
  | String c r =>
      if p c then let '(a, b) := span p r in (String c a, b)
      else (EmptyString, s)
  | EmptyString => (EmptyString, EmptyString)
  end.

(** [String.prototype.split] with a one-character separator. *)
Fixpoint split (sep : ascii) (s : string) : list string :=
  match s with
  | EmptyString => [EmptyString]
  | String c r =>
      if Ascii.eqb c sep then EmptyString :: split sep r
      else match split sep r with
           | h :: t => String c h :: t
           | [] => [String c EmptyString]
           end
  end.

(** The value of a string of decimal digits. *)
Definition digit_value (c : ascii) : N := N.of_nat (nat_of_ascii c - 48).
Fixpoint decimal_from (acc : N) (s : string) : N :=
  match s with
  | EmptyString => acc
  | String c r => decimal_from (10 * acc + digit_value c)%N r
  end.
Definition decimal (s : string) : N := decimal_from 0 s.

Fixpoint map_string (f : ascii → ascii) (s : string) : string :=
  match s with
  | EmptyString => EmptyString
  | String c r => String (f c) (map_string f r)
  end.

(** [String.prototype.trim]. *)
Fixpoint trim_end (s : string) : string :=
  match s with
  | EmptyString => EmptyString
  | String c r =>
      let r' := trim_end r in
      if is_space c && String.eqb r' EmptyString then EmptyString
      else String c r'
  end.

Definition trim (s : string) : string := trim_end (span is_space s).2.
End Text.

(** ** The version comparator

    Modelled from the spec: the Version Comparator of section 4.2 (the
    [semver] package is a dependency, not code under src/).  A version
    is MAJOR.MINOR.PATCH with optional pre-release and build metadata;
    as the package reads it, blanks around it and one leading "v" are
    ignored.  Precedence compares the three numbers, then a version
    with a pre-release sorts below the same version without one, and
    pre-releases compare identifier by identifier. *)

Module semver.

Inductive identifier :=
| Numeric (n : N)
| Alphanumeric (s : string).

Record SemVer := {
  major : N;
  minor : N;
  patch : N;
  prerelease : list identifier;
}.

Definition nonempty (s : string) : bool := negb (String.eqb s "").

(** A numeric identifier: digits, without a leading zero. *)
Definition numeric (s : string) : option N :=
  if nonempty s && Text.all Text.is_digit s
     && (String.eqb s "0" || negb (String.prefix "0" s))
  then Some (Text.decimal s) else None.

Definition is_ident_char (c : ascii) : bool :=
  Text.is_digit c || Text.is_letter c || Ascii.eqb c "-".

Definition pre_identifier (s : string) : option identifier :=
  if nonempty s && Text.all is_ident_char s then
    if Text.all Text.is_digit s then Numeric <$> numeric s
    else Some (Alphanumeric s)
  else None.

Definition build_identifier (s : string) : bool :=
  nonempty s && Text.all is_ident_char s.

(** The text before the first [sep] and, when [sep] occurs, the text
    after it. *)
Fixpoint cut (sep : ascii) (s : string) : string * option string :=
  match s with
  | EmptyString => (EmptyString, None)
  | String c r =>
      if Ascii.eqb c sep then (EmptyString, Some r)
      else let '(a, b) := cut sep r in (String c a, b)
  end.

Definition strip_v (s : string) : string :=
  match s with
  | String "v" r => r
  | _ => s
  end.

Definition parse (version : string) : option SemVer :=
  let '(main_pre, build) := cut "+" (strip_v (Text.trim version)) in
  let '(main, pre) := cut "-" main_pre in
  let build_ok :=
    match build with
    | Some b => forallb build_identifier (Text.split "." b)
    | None => true
    end in
  if build_ok then
    match Text.split "." main with
    | [ma; mi; pa] =>
        ma ← numeric ma; mi ← numeric mi; pa ← numeric pa;
        pre ← match pre with
              | Some p => mapM pre_identifier (Text.split "." p)
              | None => Some []
              end;
        Some {| major := ma; minor := mi; patch := pa; prerelease := pre |}
    | _ => None
    end
  else None.

Definition compareIdentifiers (a b : identifier) : comparison :=
  match a, b with
  | Numeric x, Numeric y => N.compare x y
  | Numeric _, Alphanumeric _ => Lt
  | Alphanumeric _, Numeric _ => Gt
  | Alphanumeric x, Alphanumeric y => String.compare x y
  end.

Fixpoint comparePreList (a b : list identifier) : comparison :=
  match a, b with
  | [], [] => Eq
  | [], _ :: _ => Lt
  | _ :: _, [] => Gt
  | x :: a', y :: b' =>
      match compareIdentifiers x y with
      | Eq => comparePreList a' b'
      | c => c
      end
  end.

Definition comparePre (a b : SemVer) : comparison :=
  match prerelease a, prerelease b with
  | [], [] => Eq
  | _ :: _, [] => Lt
  | [], _ :: _ => Gt
  | pa, pb => comparePreList pa pb
  end.

Definition compareMain (a b : SemVer) : comparison :=
  match N.compare (major a) (major b) with
  | Eq => match N.compare (minor a) (minor b) with
          | Eq => N.compare (patch a) (patch b)
          | c => c
          end
  | c => c
  end.

Definition compare (a b : SemVer) : comparison :=
  match compareMain a b with
  | Eq => comparePre a b
  | c => c
  end.

Definition valid (version : string) : bool :=
  match parse version with Some _ => true | None => false end.

Definition lt (a b : string) : bool :=
  match parse a, parse b with
  | Some x, Some y =>
      match compare x y with Lt => true | _ => false end
  | _, _ => false
  end.

End semver.

(** ** The byte-size parser

    Modelled from the spec: the Byte-Size Parser of section 4.1 (the
    [bytes] package is a dependency, not code under src/), with the
    unit table of that package: a decimal magnitude followed by one of
    kb, mb, gb, tb, pb in any case, powers of 1024; any other string is
    read as a plain integer of bytes; [None] is the package's [null]. *)

Module bytes.

Definition unit_factor (unit : string) : option Z :=
  if String.eqb unit "b" then Some 1
  else if String.eqb unit "kb" then Some (2 ^ 10)
  else if String.eqb unit "mb" then Some (2 ^ 20)
  else if String.eqb unit "gb" then Some (2 ^ 30)
  else if String.eqb unit "tb" then Some (2 ^ 40)
  else if String.eqb unit "pb" then Some (2 ^ 50)
  else None.

Definition sign_of (s : string) : Z * string :=
  match s with
  | String "-" r => (-1, r)
  | String "+" r => (1, r)
  | _ => (1, s)
  end.

(** [parseInt(val, 10)]: leading blanks, a sign, then the longest run
    of digits; [None] stands for [NaN]. *)
Definition parseInt (val : string) : option Z :=
  let '(_, r) := Text.span Text.is_space val in
  let '(sg, r) := sign_of r in
  let '(ds, _) := Text.span Text.is_digit r in
  if String.eqb ds "" then None else Some (sg * Z.of_N (Text.decimal ds)).

(** A match of the size pattern: sign, integer digits, optional
    fraction digits, blanks, then one of the two-letter units in any
    case.  Returns the magnitude and the unit's factor. *)
Definition match_size (val : string) : option (Q * Z) :=
  let '(sg, r) := sign_of val in
  let '(ip, r) := Text.span Text.is_digit r in
  if String.eqb ip "" then None else
  let '(fp, r) :=
    match r with
    | String "." r' =>
        let '(fp, r'') := Text.span Text.is_digit r' in
        if String.eqb fp "" then (EmptyString, r) else (fp, r'')
    | _ => (EmptyString, r)
    end in
  let '(_, r) := Text.span (Ascii.eqb " ") r in
  let unit := Text.map_string Text.lower r in
  if String.eqb unit "b" then None else
  factor ← unit_factor unit;
  let magnitude :=
    (inject_Z (Z.of_N (Text.decimal (ip +:+ fp)))
     / inject_Z (10 ^ Z.of_nat (String.length fp)))%Q in
  Some ((inject_Z sg * magnitude)%Q, factor).

Definition parse (val : string) : option Z :=
  match match_size val with
  | Some (floatValue, factor) => Some (Qfloor (inject_Z factor * floatValue))
  | None => parseInt val
  end.

End bytes.

(** ** The configuration record built by [getImageInfo] *)

Record Info := {
  cmd : list string;
  dataSize : string;
  entrypoint : list string;
  env : list string;
  ramSize : string;
  sdkName : string;
  sdkVersion : string;
  workdir : option string;
}.

(** ** Stage command builders (build.mjs, lines 120-181) *)

Definition createRootfsTarCommand : list string :=
  let cmd :=
    [ "cat"; "/tmp/input"; "|"; "crane"; "export"; "-"; "-"; "|";
      "bsdtar"; "-cf"; "/tmp/output"; "--format=gnutar"; "@/dev/stdin" ] in
  [ "/usr/bin/env"; "bash"; "-c"; Js.join " " cmd ].

Definition blockSize : Z := 4096.

Definition extraBlocks (extraBytes : Z) : Z :=
  Js.Math_ceil (Js.div extraBytes blockSize).

Definition createExt2Command (extraBytes : Z) : list string :=
  let extraSize := "+" +:+ Js.Number_toString (extraBlocks extraBytes) in
  [ "xgenext2fs"; "--tarball"; "/tmp/input"; "--block-size";
    Js.Number_toString blockSize; "--faketime"; "-r"; extraSize;
    "/tmp/output" ].

Definition createMachineSnapshotCommand (info : Info) : list string :=
  let ramSize := ramSize info in
  let driveLabel := "root" in
  let envs := map (λ variable, "--env=" +:+ variable) (env info) in
  let entrypoint := Js.join " " (entrypoint info ++ cmd info) in
  let cwd :=
    match workdir info with
    | Some w => if truthy w then "--workdir=" +:+ w else ""
    | None => ""
    end in
  [ "create_machine_snapshot";
    "--ram-length=" +:+ ramSize;
    "--drive-label=" +:+ driveLabel;
    "--drive-filename=/tmp/input";
    "--output=/tmp/output";
    cwd ] ++ envs ++ [ "--entrypoint=" +:+ entrypoint ].

(** Recognisers for the argument classes of the snapshot command. *)
Definition is_env_arg (s : string) : bool := String.prefix "--env=" s.
Definition is_entrypoint_arg (s : string) : bool :=
  String.prefix "--entrypoint=" s.

(** ** Label names and defaults (build.mjs, lines 9-16) *)

Definition CARTESI_LABEL_PREFIX : string := "io.cartesi.rollups".
Definition CARTESI_LABEL_RAM_SIZE : string := CARTESI_LABEL_PREFIX +:+ ".ram_size".
Definition CARTESI_LABEL_DATA_SIZE : string := CARTESI_LABEL_PREFIX +:+ ".data_size".
Definition CARTESI_DEFAULT_RAM_SIZE : string := "128Mi".
Definition CARTESI_LABEL_SDK_VERSION : string := CARTESI_LABEL_PREFIX +:+ ".sdk_version".
Definition CARTESI_LABEL_SDK_NAME : string := CARTESI_LABEL_PREFIX +:+ ".sdk_name".
Definition CARTESI_DEFAULT_SDK_VERSION : string := "0.9.0".

(** ** What [docker image inspect] reports

    The first element of the parsed JSON array, with the fields the
    code reads.  A field that is [null] or missing is [None]. *)

Record ImageConfig := {
  Labels : option (gmap string string);
  Cmd : option (list string);
  Entrypoint : option (list string);
  Env : option (list string);
  WorkingDir : option string;
}.

Record Inspected := {
  Architecture : string;
  Config : ImageConfig;
}.

(** ** Paths

    Modelled from the spec: [getAbsolutePath] of helper.mjs, which is
    not under src/.  Section 3 (WorkingArea) names every artifact
    relative to the one working directory, so a path is the list of
    segments below the working area; the empty list is the working
    area itself. *)

Definition path := list string.

Definition getAbsolutePath (paths : list string) : path := paths.

Definition path_string (p : path) : string := Js.join "/" p.

(** ** Spawned processes *)

Inductive docker_cmd :=
| ImageInspect (image : string)
| ImageSave (image : string) (outputFilePath : path)
| ContainerCreate (inputPath : path) (sdkImage : string) (cmd : list string)
| ContainerStart (cid : string)
| ContainerCp (cid : string) (outputPath : path)
| ContainerStop (cid : string)
| ContainerRm (cid : string)
| Compose (args : list string) (env : list (string * string)).

(** The argument array passed to [execa("docker", ...)]. *)
Definition argv (c : docker_cmd) : list string :=
  match c with
  | ImageInspect image => ["image"; "inspect"; image]
  | ImageSave image outputFilePath =>
      ["image"; "save"; image; "-o"; path_string outputFilePath]
  | ContainerCreate inputPath sdkImage cmd =>
      ["container"; "create"; "--volume";
       path_string inputPath +:+ ":/tmp/input"; sdkImage] ++ cmd
  | ContainerStart cid => ["container"; "start"; "-a"; cid]
  | ContainerCp cid outputPath =>
      ["container"; "cp"; cid +:+ ":/tmp/output"; path_string outputPath]
  | ContainerStop cid => ["container"; "stop"; cid]
  | ContainerRm cid => ["container"; "rm"; cid]
  | Compose args _ => args
  end.

#[export] Instance docker_cmd_eq_dec : EqDecision docker_cmd.
Proof. solve_decision. Defined.

(** How one spawned process ends: its exit code ([None] when it has
    none: it could not be spawned, or a signal killed it), its standard
    output, and, for a process that fails, whether it had already
    written its output file. *)
Record outcome := {
  exitCode : option Z;
  stdout : string;
  wrote : bool;
}.

Definition succeeded (o : outcome) : bool :=
  match exitCode o with Some 0 => true | _ => false end.

(** ** Exceptions *)

Inductive exn :=
| Error (message : string)
| TypeError (message : string)
| ExecaError (command : docker_cmd) (code : option Z)
| SystemError (code : string) (p : path).

#[export] Instance exn_eq_dec : EqDecision exn.
Proof. solve_decision. Defined.

(** ** The world the commands act on *)

Inductive event :=
| Spawn (c : docker_cmd)
| EmptyDir (p : path)
| Chmod (p : path) (mode : Z)
| Remove (p : path)
| Warn (message : string).

#[export] Instance event_eq_dec : EqDecision event.
Proof. solve_decision. Defined.

Record World := {
  (** entries that exist in the working area *)
  files : gset path;
  (** content of the files read back, in hexadecimal *)
  hex : gmap path string;
  (** whether ./.cartesi.env exists in the project directory *)
  envfile : bool;
  (** the image store: what inspection reports for each image *)
  images : gmap string Inspected;
  (** the containers that exist *)
  containers : gset string;
  (** how the n-th spawned process ends *)
  docker : nat → outcome;
  (** the directory of the installation, one above that of run.mjs *)
  binPath : string;
  (** the number of processes spawned so far *)
  spawned : nat;
  (** everything done so far, oldest first *)
  log : list event;
}.

Definition with_files (f : gset path) (w : World) : World :=
  {| files := f; hex := hex w; envfile := envfile w; images := images w;
     containers := containers w; docker := docker w; binPath := binPath w;
     spawned := spawned w;
     log := log w |}.

Definition with_containers (c : gset string) (w : World) : World :=
  {| files := files w; hex := hex w; envfile := envfile w; images := images w;
     containers := c; docker := docker w; binPath := binPath w;
     spawned := spawned w;
     log := log w |}.

Definition record (e : event) (w : World) : World :=
  {| files := files w; hex := hex w; envfile := envfile w; images := images w;
     containers := containers w; docker := docker w; binPath := binPath w;
     spawned := spawned w;
     log := log w ++ [e] |}.

Definition next_process (w : World) : World :=
  {| files := files w; hex := hex w; envfile := envfile w; images := images w;
     containers := containers w; docker := docker w; binPath := binPath w;
     spawned := S (spawned w);
     log := log w |}.

(** ** Computations: state and exceptions *)

Inductive completion (A : Type) :=
| Return (a : A)
| Throw (e : exn).
Arguments Return {A} a.
Arguments Throw {A} e.

Definition M (A : Type) : Type := World → completion A * World.

#[export] Instance M_ret : MRet M := λ A a w, (Return a, w).

#[export] Instance M_bind : MBind M := λ A B k m w,
  match m w with
  | (Return a, w') => k a w'
  | (Throw e, w') => (Throw e, w')
  end.

Definition throw {A} (e : exn) : M A := λ w, (Throw e, w).

(** [try { body } finally { fin }]: [fin] runs however [body] ends; an
    exception of [fin] replaces the completion of [body]. *)
Definition try_finally {A} (body : M A) (fin : M unit) : M A := λ w,
  let '(r, w1) := body w in
  match fin w1 with
  | (Return _, w2) => (r, w2)
  | (Throw e, w2) => (Throw e, w2)
  end.

(** [try { body } catch (e) { handler e }]. *)
Definition try_catch {A} (body : M A) (handler : exn → M A) : M A := λ w,
  match body w with
  | (Throw e, w1) => handler e w1
  | r => r
  end.

(** ** The Docker model

    Modelled from the spec: the Image Store and Execution Environment
    interfaces of section 6; Docker itself is not under src/.  Saving
    an image or copying out of a container writes the destination;
    creating a container prints its id and makes it exist; removing it
    makes it cease to exist. *)

Definition docker_effect (c : docker_cmd) (o : outcome) (w : World) : World :=
  match c with
  | ImageSave _ p | ContainerCp _ p =>
      if succeeded o || wrote o then with_files ({[ p ]} ∪ files w) w else w
  | ContainerCreate _ _ _ =>
      if succeeded o then with_containers ({[ stdout o ]} ∪ containers w) w
      else w
  | ContainerRm cid =>
      if succeeded o then with_containers (containers w ∖ {[ cid ]}) w else w
  | _ => w
  end.

(** The world once the next process has been spawned with arguments
    [argv c] and has ended. *)
Definition spawn (c : docker_cmd) (w : World) : World :=
  docker_effect c (docker w (spawned w)) (next_process (record (Spawn c) w)).

(** The outcome of the [k]-th process spawned from [w] on. *)
Definition outcome_at (w : World) (k : nat) : outcome :=
  docker w (spawned w + k)%nat.

(** What has been done between [w] and a later [w']. *)
Definition events_since (w w' : World) : list event :=
  drop (length (log w)) (log w').

(** [await execa("docker", argv c)]: resolves to the standard output
    when the process exits with 0, rejects otherwise. *)
Definition execa (c : docker_cmd) : M string := λ w,
  let o := docker w (spawned w) in
  (if succeeded o then Return (stdout o) else Throw (ExecaError c (exitCode o)),
   spawn c w).

(** [execa("docker", ["image", "inspect", image])] followed by
    [JSON.parse] and the destructuring of the first element.  Docker
    exits with 1 for an image it does not have. *)
Definition inspect (image : string) : M Inspected := λ w,
  let o := docker w (spawned w) in
  let c := ImageInspect image in
  (if succeeded o then
     match images w !! image with
     | Some imageInfo => Return imageInfo
     | None => Throw (ExecaError c (Some 1))
     end
   else Throw (ExecaError c (exitCode o)),
   spawn c w).

(** ** The file-system calls of fs-extra *)

(** [fs.emptyDir]: the directory exists and has no content. *)
Definition fs_emptyDir (p : path) : M unit := λ w,
  (Return (),
   with_files ({[ p ]} ∪ filter (λ f, ¬ p `prefix_of` f) (files w))
              (record (EmptyDir p) w)).

(** [fs.remove]: the entry and all below it are gone; an absent entry
    is not an error. *)
Definition fs_remove (p : path) : M unit := λ w,
  (Return (),
   with_files (filter (λ f, ¬ p `prefix_of` f) (files w))
              (record (Remove p) w)).

(** [fs.chmod]: fails with ENOENT on an absent entry. *)
Definition fs_chmod (p : path) (mode : Z) : M unit := λ w,
  if decide (p ∈ files w) then (Return (), record (Chmod p mode) w)
  else (Throw (SystemError "ENOENT" p), w).

Definition mode_0o755 : Z := 7 * 64 + 5 * 8 + 5.

(** ** [this]

    Every function of both files is declared with [function] inside an
    ES module and is called without a receiver, so its [this] is a
    parameter of the call: [Some] command object, or [None] for
    [undefined].  Reading a property of [undefined] throws. *)

Record Command := { config_bin : string }.

Definition this_warn (this : option Command) (message : string) : M unit :=
  match this with
  | Some _ => λ w, (Return (), record (Warn message) w)
  | None =>
      throw (TypeError "Cannot read properties of undefined (reading 'warn')")
  end.

Definition this_config_bin (this : option Command) : M string :=
  match this with
  | Some c => mret (config_bin c)
  | None =>
      throw (TypeError "Cannot read properties of undefined (reading 'config')")
  end.

(** ** build.mjs *)

Module build.

Definition when (b : bool) (m : M unit) : M unit :=
  if b then m else mret ().

(** The [info] object of [getImageInfo] (lines 35-46). *)
Definition info_of (imageInfo : Inspected) : Info :=
  let labels := Js.or (Labels (Config imageInfo)) ∅ in
  {| cmd := Cmd (Config imageInfo) ?? [];
     dataSize := labels !! CARTESI_LABEL_DATA_SIZE ?? "10Mb";
     entrypoint := Entrypoint (Config imageInfo) ?? [];
     env := Js.or (Env (Config imageInfo)) [];
     ramSize := labels !! CARTESI_LABEL_RAM_SIZE ?? CARTESI_DEFAULT_RAM_SIZE;
     sdkName := labels !! CARTESI_LABEL_SDK_NAME ?? "cartesi/sdk";
     sdkVersion :=
       labels !! CARTESI_LABEL_SDK_VERSION ?? CARTESI_DEFAULT_SDK_VERSION;
     workdir := WorkingDir (Config imageInfo) |}.

Definition invalid_architecture (imageInfo : Inspected) : exn :=
  Error ("Invalid image Architecture: " +:+ Architecture imageInfo
         +:+ ". Expected riscv64").

Definition undefined_boot_command : exn :=
  Error "Undefined image ENTRYPOINT or CMD".

Definition unsupported_sdk_version (info : Info) : exn :=
  Error ("Unsupported sdk version: " +:+ sdkVersion info
         +:+ " (used) < " +:+ CARTESI_DEFAULT_SDK_VERSION
         +:+ " (minimum).").

Definition invalid_data_size (info : Info) : exn :=
  Error ("Invalid " +:+ CARTESI_LABEL_DATA_SIZE +:+ " value: "
         +:+ dataSize info).

(** The checks of [getImageInfo] on the [info] it has built (lines
    48-84). *)
Definition check_info (this : option Command) (info : Info) : M Info :=
  when (negb (truthy (entrypoint info)) && negb (truthy (cmd info)))
    (throw undefined_boot_command);;
  (if negb (semver.valid (sdkVersion info)) then
     this_warn this "sdk version is not a valid semver"
   else if String.eqb (sdkName info) "cartesi/sdk"
           && semver.lt (sdkVersion info) CARTESI_DEFAULT_SDK_VERSION then
     throw (unsupported_sdk_version info)
   else mret ());;
  when (negb (truthy (sdkVersion info)))
    (this_warn this ("Undefined " +:+ CARTESI_LABEL_SDK_VERSION
                     +:+ " label, defaulting to "
                     +:+ CARTESI_DEFAULT_SDK_VERSION));;
  when (negb (truthy (ramSize info)))
    (this_warn this ("Undefined " +:+ CARTESI_LABEL_RAM_SIZE
                     +:+ " label, defaulting to "
                     +:+ CARTESI_DEFAULT_RAM_SIZE));;
  when (bool_decide (bytes.parse (dataSize info) = None))
    (throw (invalid_data_size info));;
  mret info.

(** [getImageInfo] (lines 19-85). *)
Definition getImageInfo (this : option Command) (image : string) : M Info :=
  imageInfo ← inspect image;
  when (negb (String.eqb (Architecture imageInfo) "riscv64"))
    (throw (invalid_architecture imageInfo));;
  check_info this (info_of imageInfo).

(** [createTarball] (lines 88-91). *)
Definition createTarball (image : string) (outputFilePath : path) : M unit :=
  execa (ImageSave image outputFilePath);; mret ().

(** [sdkRun] (lines 95-118). *)
Definition sdkRun (sdkImage : string) (cmd : list string)
    (inputPath outputPath : path) : M unit :=
  cid ← execa (ContainerCreate inputPath sdkImage cmd);
  execa (ContainerStart cid);;
  execa (ContainerCp cid outputPath);;
  execa (ContainerStop cid);;
  execa (ContainerRm cid);;
  mret ().

(** [bytes.parse(...)] as an argument of [createExt2Command]: a
    [null] would be coerced to 0 by the division. *)
Definition bytes_number (size : string) : Z :=
  match bytes.parse size with Some n => n | None => 0 end.

(** The body of the [try] block of [run] (lines 205-226). *)
Definition stages (appImage : string) (imageInfo : Info) : M unit :=
  let snapshotPath := getAbsolutePath ["image"] in
  let tarPath := getAbsolutePath ["image.tar"] in
  let gnuTarPath := getAbsolutePath ["image.gnutar"] in
  let ext2Path := getAbsolutePath ["image.ext2"] in
  let sdkImage := sdkName imageInfo +:+ ":" +:+ sdkVersion imageInfo in
  createTarball appImage tarPath;;
  sdkRun sdkImage createRootfsTarCommand tarPath gnuTarPath;;
  sdkRun sdkImage (createExt2Command (bytes_number (dataSize imageInfo)))
         gnuTarPath ext2Path;;
  sdkRun sdkImage (createMachineSnapshotCommand imageInfo)
         ext2Path snapshotPath;;
  fs_chmod snapshotPath mode_0o755.

(** The body of the [finally] block of [run] (lines 228-229). *)
Definition cleanup : M unit :=
  let tarPath := getAbsolutePath ["image.tar"] in
  let gnuTarPath := getAbsolutePath ["image.gnutar"] in
  fs_remove gnuTarPath;;
  fs_remove tarPath.

(** [run] (lines 183-231), with [imageHash] of the enclosing
    [build]. *)
Definition run (imageHash : string) : M unit :=
  let appImage := imageHash in
  fs_emptyDir (getAbsolutePath []);;
  imageInfo ← getImageInfo None appImage;
  try_finally (stages appImage imageInfo) cleanup.

(** [build] (lines 18-233) calls [run()] and does not await it. *)
Definition build (imageHash : string) : M unit := run imageHash.

End build.

(** ** run.mjs *)

Module Run.

#[export] Instance truthy_number : Js.Truthy Z := λ n, negb (n =? 0).
#[export] Instance truthy_boolean : Js.Truthy bool := λ b, b.

Definition is_hex_digit (c : ascii) : bool :=
  let n := nat_of_ascii c in
  Text.is_digit c || ((65 <=? n)%nat && (n <=? 70)%nat)
  || ((97 <=? n)%nat && (n <=? 102)%nat).

(** [isHash] of viem: "0x" followed by 32 bytes in hexadecimal. *)
Definition isHash (s : string) : bool :=
  match s with
  | String "0" (String "x" h) =>
      Text.all is_hex_digit h && (String.length h =? 64)%nat
  | _ => false
  end.

(** [getMachineHash] (lines 9-19). *)
Definition getMachineHash : M (option string) := λ w,
  let hashPath := getAbsolutePath ["image"; "hash"] in
  if decide (hashPath ∈ files w) then
    let hash := hex w !! hashPath ?? "" in
    if isHash ("0x" +:+ hash) then (Return (Some ("0x" +:+ hash)), w)
    else (Return None, w)
  else (Return None, w).

(** [e.exitCode] of a caught exception. *)
Definition exn_exitCode (e : exn) : option Z :=
  match e with
  | ExecaError _ code => code
  | _ => None
  end.

(** [path.normalize(path.join(binPath, "node", f))] for a normalised
    [binPath]. *)
Definition node_file (binPath f : string) : string :=
  binPath +:+ "/node/" +:+ f.

(** The [env] object (lines 40-56). *)
Definition compose_env (verbose : option bool)
    (blockTime epoch_length : option Z) (listen_port : option string)
    (binPath : string) : list (string * string) :=
  let blockInterval := Js.or blockTime 5 in
  let epochLength := Js.or epoch_length 720 in
  let listenPort := Js.or listen_port "8080" in
  [ ("ANVIL_VERBOSITY",
     if truthy verbose then "--steps-tracing" else "--silent");
    ("BLOCK_TIME", Js.Number_toString blockInterval);
    ("BLOCK_TIMEOUT", Js.Number_toString (Js.add blockInterval 3));
    ("CARTESI_EPOCH_LENGTH", Js.Number_toString epochLength);
    ("CARTESI_EXPERIMENTAL_DISABLE_CONFIG_LOG",
     if truthy verbose then "false" else "true");
    ("CARTESI_EXPERIMENTAL_SERVER_MANAGER_BYPASS_LOG",
     if truthy verbose then "false" else "true");
    ("CARTESI_LOG_LEVEL", if truthy verbose then "info" else "error");
    ("CARTESI_SNAPSHOT_DIR", "/usr/share/rollups-node/snapshot");
    ("CARTESI_BIN_PATH", binPath);
    ("CARTESI_LISTEN_PORT", listenPort) ].

(** [compose_args] as it stands when the processes are spawned
    (lines 58-104). *)
Definition compose_args (verbose : option bool) (binPath : string)
    (envfile : bool) (projectName : string) : list string :=
  let composeFiles :=
    [ "docker-compose-validator.yaml";
      "docker-compose-prompt.yaml";
      "docker-compose-database.yaml";
      "docker-compose-proxy.yaml";
      "docker-compose-anvil.yaml";
      "docker-compose-explorer.yaml";
      "docker-compose-snapshot-volume.yaml" ]
    ++ (if envfile then ["docker-compose-envfile.yaml"] else []) in
  let files :=
    concat (map (λ f, ["--file"; node_file binPath f]) composeFiles) in
  let compose_args :=
    ["compose"] ++ files
    ++ ["--project-directory"; "."; "--project-name"; projectName] in
  if truthy verbose then compose_args
  else compose_args ++ ["--progress"; "quiet"].

Definition up_args (verbose : option bool) : list string :=
  if truthy verbose then []
  else ["--attach"; "validator"; "--attach"; "prompt"].

(** The compose environment of one invocation: the two processes it
    spawns. *)
Definition compose_up (compose_args up_args : list string)
    (env : list (string * string)) : docker_cmd :=
  Compose (compose_args ++ ["up"] ++ up_args) env.

Definition compose_down (compose_args : list string)
    (env : list (string * string)) : docker_cmd :=
  Compose (compose_args ++ ["down"; "--volumes"]) env.

(** The handler of the [catch] clause (lines 115-119). *)
Definition swallow_130 (e : exn) : M unit :=
  if bool_decide (exn_exitCode e ≠ Some 130) then throw e else mret ().

(** [run] (lines 21-127), with the parameters of the enclosing
    [Run]. *)
Definition run (this : option Command) (verbose : option bool)
    (blockTime epoch_length : option Z) (listen_port : option string)
    : M unit :=
  hash ← getMachineHash;
  match hash with
  | None =>
      bin ← this_config_bin this;
      throw (Error ("Cartesi machine snapshot not found, run '" +:+ bin
                    +:+ " build'"))
  | Some hash =>
      let projectName := String.substring 2 8 hash in
      binPath ← (λ w, (Return (binPath w), w));
      let env :=
        compose_env verbose blockTime epoch_length listen_port binPath in
      envfile ← (λ w, (Return (envfile w), w));
      let compose_args := compose_args verbose binPath envfile projectName in
      let up_args := up_args verbose in
      try_finally
        (try_catch
           (execa (compose_up compose_args up_args env);; mret ())
           swallow_130)
        (execa (compose_down compose_args env);; mret ())
  end.

End Run.

(** ** Sample inputs *)

Module Sample.

Definition ok (out : string) : outcome :=
  {| exitCode := Some 0; stdout := out; wrote := false |}.

Definition failed (code : Z) : outcome :=
  {| exitCode := Some code; stdout := ""; wrote := false |}.

(** Every process succeeds; a created container is called "c0". *)
Definition all_succeed : nat → outcome := λ _, ok "c0".

(** Every process succeeds but the [n]-th, which exits with [code]. *)
Definition fails_at (n : nat) (code : Z) : nat → outcome :=
  λ k, if (k =? n)%nat then failed code else ok "c0".

Definition image_with (arch : string) (labels : option (gmap string string))
    (entrypoint cmd : option (list string)) : Inspected :=
  {| Architecture := arch;
     Config := {| Labels := labels; Cmd := cmd; Entrypoint := entrypoint;
                  Env := Some ["PATH=/usr/bin"]; WorkingDir := Some "" |} |}.

(** A well-formed application image. *)
Definition app : Inspected :=
  image_with "riscv64" None (Some ["/init"]) (Some ["dapp"]).

(** An image with neither ENTRYPOINT nor CMD. *)
Definition no_boot_command : Inspected :=
  image_with "riscv64" None None None.

(** An image whose sdk_version label is a tag, not a version. *)
Definition tagged_sdk : Inspected :=
  image_with "riscv64"
    (Some {[ CARTESI_LABEL_SDK_VERSION := "latest" ]})
    (Some ["/init"]) None.

Definition old_sdk : Inspected :=
  image_with "riscv64"
    (Some {[ CARTESI_LABEL_SDK_VERSION := "0.8.9" ]})
    (Some ["/init"]) None.

Definition minimum_sdk : Inspected :=
  image_with "riscv64"
    (Some {[ CARTESI_LABEL_SDK_NAME := "cartesi/sdk";
             CARTESI_LABEL_SDK_VERSION := "0.9.0" ]})
    (Some ["/init"]) None.

Definition amd64 : Inspected :=
  image_with "amd64" None (Some ["/init"]) None.

(** A world whose image store holds [imageInfo] under the name "app",
    with a stale file in the working area and no container. *)
Definition world (imageInfo : Inspected) (docker : nat → outcome) : World :=
  {| files := {[ ["stale"] ]}; hex := ∅; envfile := false;
     images := {[ "app" := imageInfo ]}; containers := ∅;
     docker := docker; binPath := "/opt/cli"; spawned := 0; log := [] |}.

(** A world with a built snapshot, as [Run] expects it. *)
Definition built (docker : nat → outcome) : World :=
  {| files := {[ ["image"]; ["image"; "hash"] ]};
     hex := {[ ["image"; "hash"] :=
               "00112233445566778899aabbccddeeff00112233445566778899aabbccddeeff" ]};
     envfile := false; images := ∅; containers := ∅;
     docker := docker; binPath := "/opt/cli"; spawned := 0; log := [] |}.

Definition info : Info :=
  {| cmd := ["dapp"]; dataSize := "10Mb"; entrypoint := ["/init"];
     env := ["PATH=/usr/bin"; "HOME=/root"]; ramSize := "128Mi";
     sdkName := "cartesi/sdk"; sdkVersion := "0.9.0"; workdir := None |}.

End Sample.

(** ** index.js

    The entry point (the unnamed source file that imports both
    commands).  What it does is reified as an [action]: it prints a
    usage line and exits, or it calls one of the two commands, or it
    does nothing. *)

Module index.

Definition usage_build : string := "Usage: npm run build <image-hash>".

Definition usage_run : string :=
  "Usage: npm run <verbose> <block time in seconds default 5> <epoch_lenght default 720> <listening port default 8080>".

(** [Boolean(first) || undefined]. *)
Definition verbose_of (first : option string) : option bool :=
  if truthy first then Some true else None.

(** [fourth || undefined]. *)
Definition or_undefined (fourth : option string) : option string :=
  if truthy fourth then fourth else None.

Section Main.

(** The numbers of the language and the reading
    [Number(x) || undefined] of an optional argument are parameters
    of the script: nothing it does depends on them. *)
Variable number : Type.
Variable Number_or_undefined : option string → option number.

Inductive action :=
| Exit (message : string) (code : Z)
| CallBuild (imageHash : option string)
| CallRun (verbose : option bool) (blockTime epoch_length : option number)
          (listen_port : option string)
| Nothing.

(** The script (lines 4-34), on [args = process.argv.slice(2)]. *)
Definition main (args : list string) : action :=
  if decide (args !! 0%nat = Some "build") then
    if decide (length args ≠ 2%nat) then Exit usage_build 1
    else CallBuild (args !! 1%nat)
  else if decide (args !! 0%nat = Some "run") then
    let first := args !! 1%nat in
    let second := args !! 2%nat in
    let third := args !! 3%nat in
    let fourth := args !! 4%nat in
    if decide (first = Some "help") then Exit usage_run 1
    else CallRun (verbose_of first) (Number_or_undefined second)
                 (Number_or_undefined third) (or_undefined fourth)
  else Nothing.

End Main.

Arguments Exit {number} message code.
Arguments CallBuild {number} imageHash.
Arguments CallRun {number} verbose blockTime epoch_length listen_port.
Arguments Nothing {number}.

End index.

(** ** Observations the properties are stated with *)

Definition is_workdir_arg (s : string) : bool := String.prefix "--workdir=" s.

Definition is_spawn (e : event) : bool :=
  match e with Spawn _ => true | _ => false end.

(** The boot command of a configuration: ENTRYPOINT, then CMD. *)
Definition boot_command (info : Info) : string :=
  match entrypoint info, cmd info with
  | [], c => Js.join " " c
  | e, [] => Js.join " " e
  | e, c => Js.join " " e +:+ " " +:+ Js.join " " c
  end.

(** The file a process writes, if it writes one. *)
Definition output_of (c : docker_cmd) : option path :=
  match c with
  | ImageSave _ p | ContainerCp _ p => Some p
  | _ => None
  end.

(** The five processes of one [sdkRun] that succeeds, for the
    container [cid]. *)
Definition sdkRun_events (sdkImage : string) (cmd : list string)
    (inputPath outputPath : path) (cid : string) : list event :=
  [ Spawn (ContainerCreate inputPath sdkImage cmd);
    Spawn (ContainerStart cid);
    Spawn (ContainerCp cid outputPath);
    Spawn (ContainerStop cid);
    Spawn (ContainerRm cid) ].


(** ** More sample inputs *)

Module Sample2.


Definition custom_sdk : Inspected :=
  Sample.image_with "riscv64"
    (Some {[ CARTESI_LABEL_SDK_NAME := "acme/sdk";
             CARTESI_LABEL_SDK_VERSION := "0.1.0" ]})
    (Some ["/init"]) None.

(** A world without the image "app". *)
Definition no_image : World :=
  {| files := {[ ["image"]; ["image"; "hash"] ]}; hex := ∅;
     envfile := false; images := ∅; containers := ∅;
     docker := Sample.all_succeed; binPath := "/opt/cli"; spawned := 0;
     log := [] |}.

End Sample2.

(** * Properties of the stage command builders *)

Section Builders.

Lemma extraBlocks_bounds (extraBytes : Z) :
  (extraBlocks extraBytes - 1) * 4096 < extraBytes
  ∧ extraBytes ≤ extraBlocks extraBytes * 4096.
Proof.
  unfold extraBlocks, Js.Math_ceil, Js.div, blockSize.
  set (q := (inject_Z extraBytes / inject_Z 4096)%Q).
  assert (Hq : (q * inject_Z 4096 == inject_Z extraBytes)%Q).
  { unfold q. field. }
  pose proof (Qle_ceiling q) as Hup.
  pose proof (Qceiling_lt q) as Hlo.
  split.
  - rewrite Zlt_Qlt, inject_Z_mult, <- Hq.
    apply Qmult_lt_compat_r; [reflexivity | exact Hlo].
  - rewrite Zle_Qle, inject_Z_mult, <- Hq.
    apply Qmult_le_compat_r; [exact Hup | discriminate].
Qed.

Lemma filter_env_args (l : list string) :
  List.filter is_env_arg (map (λ variable, "--env=" +:+ variable) l)
  = map (λ variable, "--env=" +:+ variable) l.
Proof.
  induction l as [|v l IH]; [reflexivity|].
  cbn [map List.filter]. rewrite IH.
  replace (is_env_arg ("--env=" +:+ v)) with true; [reflexivity|].
  unfold is_env_arg. cbn. by destruct v.
Qed.

Lemma filter_entrypoint_envs (l : list string) :
  List.filter is_entrypoint_arg (map (λ variable, "--env=" +:+ variable) l)
  = [].
Proof. induction l as [|v l IH]; [reflexivity | exact IH]. Qed.

Lemma cwd_not_env (info : Info) :
  is_env_arg (match workdir info with
              | Some w => if truthy w then "--workdir=" +:+ w else ""
              | None => ""
              end) = false
  ∧ is_entrypoint_arg (match workdir info with
              | Some w => if truthy w then "--workdir=" +:+ w else ""
              | None => ""
              end) = false.
Proof. destruct (workdir info) as [w|]; [destruct (truthy w)|]; done. Qed.

End Builders.

(** ** Integers within and beyond the safe range *)

Section Numbers.

Lemma exponent_safe (a : Z) : 0 < a < 2 ^ 53 → Js.exponent a = 0.
Proof.
  intros [Hpos Hlt]. unfold Js.exponent.
  apply Z.log2_lt_pow2 in Hlt; lia.
Qed.

(** When no other integer rounds to [a], the digits are those of
    [a]. *)
Lemma shortest_only (j : nat) (a lo4 hi4 : Z) (inclusive : bool) :
  (∀ v, Js.within lo4 hi4 inclusive v = true → v = a) →
  Js.shortest j a lo4 hi4 inclusive = a.
Proof.
  intros Honly. induction j as [|j IH]; [reflexivity|].
  cbn [Js.shortest]. cbv zeta.
  set (p := 10 ^ Z.of_nat (S j)).
  set (d := a / p * p).
  destruct (Js.within lo4 hi4 inclusive d) eqn:Hd;
    destruct (Js.within lo4 hi4 inclusive (d + p)) eqn:Hu;
    try apply Honly in Hd; try apply Honly in Hu;
    rewrite ?andb_true_r, ?andb_false_r; cbn [andb];
    repeat case_match; try assumption; try exact IH.
Qed.

(** Up to 2 ^ 53 an integer is printed in plain decimal. *)
Lemma Number_toString_safe (z : Z) :
  0 ≤ z < 2 ^ 53 → Js.Number_toString z = pretty z.
Proof.
  intros [Hpos Hlt]. unfold Js.Number_toString.
  destruct (Z.eqb_spec z 0) as [->|Hnz]; [reflexivity|].
  assert (Hz : 0 < z) by lia.
  rewrite Z.abs_eq by lia.
  assert (Hdigits : Js.digits z = z).
  { unfold Js.digits. rewrite exponent_safe by lia.
    apply shortest_only. intros v.
    unfold Js.within. change (2 ^ 0) with 1. change (52 + 0) with 52.
    destruct (Z.even (z / 1)), (z =? 2 ^ 52); lia. }
  rewrite Hdigits.
  destruct (Z.ltb_spec z 0) as [?|_]; [lia|].
  destruct (Z.ltb_spec z (10 ^ 21)) as [_|Hbig]; [reflexivity|].
  assert (2 ^ 53 < 10 ^ 21) by reflexivity. lia.
Qed.

Lemma representable_safe (z : Z) :
  0 ≤ z < 2 ^ 53 → Js.representable z = true.
Proof.
  intros [Hpos Hlt]. unfold Js.representable. rewrite Z.abs_eq by lia.
  destruct (Z.eqb_spec z 0) as [->|Hnz]; [reflexivity|].
  rewrite exponent_safe by lia. change (2 ^ 0) with 1.
  rewrite Z.mod_1_r. cbn [Z.eqb andb].
  apply Z.ltb_lt. assert (2 ^ 53 < 2 ^ 1024) by reflexivity. lia.
Qed.

(** Arithmetic on doubles is exact when its result is a double. *)
Lemma nearest_representable (z : Z) :
  Js.representable z = true → Js.nearest z = z.
Proof.
  unfold Js.representable, Js.nearest. intros Hrep.
  apply andb_true_iff in Hrep as [Hmod _]. apply Z.eqb_eq in Hmod.
  cbv zeta. rewrite Hmod.
  assert (Hgap : 0 < 2 ^ Js.exponent (Z.abs z)).
  { apply Z.pow_pos_nonneg; [lia | unfold Js.exponent; lia]. }
  destruct (Z.ltb_spec (2 * 0) (2 ^ Js.exponent (Z.abs z))) as [_|?];
    [|lia].
  pose proof (Z.div_mod (Z.abs z) (2 ^ Js.exponent (Z.abs z))) as Hdm.
  rewrite Hmod, Z.add_0_r, Z.mul_comm in Hdm.
  rewrite <- Hdm by lia. rewrite Z.mul_comm. apply Z.abs_sgn.
Qed.

(** The number of blocks of a double is a double: below 2 ^ 53 every
    integer is one, and a larger count comes from a multiple of 4096,
    whose quotient keeps the significand. *)
Lemma representable_blocks (extraBytes : Z) :
  0 ≤ extraBytes →
  Js.representable extraBytes = true →
  Js.representable (extraBlocks extraBytes) = true.
Proof.
  intros Hpos Hrep.
  destruct (extraBlocks_bounds extraBytes) as [Hlo Hup].
  set (b := extraBlocks extraBytes) in *.
  destruct (Z_lt_le_dec b (2 ^ 53)) as [Hsmall | Hbig].
  { apply representable_safe. lia. }
  assert (H64 : 2 ^ 64 ≤ extraBytes).
  { assert (2 ^ 64 ≤ (2 ^ 53 - 1) * 4096) by (vm_compute; discriminate).
    nia. }
  unfold Js.representable in Hrep. rewrite Z.abs_eq in Hrep by lia.
  apply andb_true_iff in Hrep as [Hmod Hmax].
  apply Z.eqb_eq in Hmod. apply Z.ltb_lt in Hmax.
  assert (Hlog : 64 ≤ Z.log2 extraBytes).
  { apply Z.log2_le_pow2; lia. }
  unfold Js.exponent in Hmod. rewrite Z.max_r in Hmod by lia.
  set (e := Z.log2 extraBytes - 52) in *.
  assert (He : 12 ≤ e) by (unfold e; lia).
  apply Z.mod_divide in Hmod; [|apply Z.pow_nonzero; lia].
  destruct Hmod as [q Hq].
  assert (Hpow : 2 ^ e = 2 ^ (e - 12) * 4096).
  { replace e with ((e - 12) + 12) at 1 by lia.
    rewrite Z.pow_add_r by lia. reflexivity. }
  assert (Hb : b = q * 2 ^ (e - 12)).
  { rewrite Hpow in Hq. nia. }
  assert (Hbpos : 0 < b) by lia.
  assert (Hlogb : Z.log2 b = Z.log2 extraBytes - 12).
  { assert (Hx : extraBytes = b * 2 ^ 12).
    { rewrite Hq, Hpow, Hb. change (2 ^ 12) with 4096. ring. }
    rewrite Hx at 1. rewrite Z.log2_mul_pow2 by lia. lia. }
  unfold Js.representable. rewrite Z.abs_eq by lia.
  apply andb_true_iff. split.
  - apply Z.eqb_eq. unfold Js.exponent. rewrite Hlogb, Z.max_r by lia.
    replace (Z.log2 extraBytes - 12 - 52) with (e - 12) by (unfold e; lia).
    rewrite Hb. apply Z.mod_mul. apply Z.pow_nonzero; lia.
  - apply Z.ltb_lt. nia.
Qed.

End Numbers.

(** C7.  For a slack allowance of [extraBytes >= 0] bytes, an integer
    that is a number of the language, [createExt2Command] asks for
    block size 4096 and the faked timestamp, and its extra-size
    argument is "+" followed by the number of 4096-byte blocks that
    [extraBytes] rounds up to, the least count of whole blocks that
    holds [extraBytes], as the language prints that number: in plain
    decimal up to the largest safe integer, which covers every
    allowance up to 2 ^ 65 - 4096 bytes. *)
Theorem createExt2Command_rounds_up (extraBytes : Z) :
  0 ≤ extraBytes →
  Js.representable extraBytes = true →
  ∃ blocks : Z,
    createExt2Command extraBytes
    = [ "xgenext2fs"; "--tarball"; "/tmp/input"; "--block-size"; "4096";
        "--faketime"; "-r"; "+" +:+ Js.Number_toString blocks; "/tmp/output" ]
    ∧ 0 ≤ blocks
    ∧ extraBytes ≤ blocks * 4096
    ∧ (∀ k : Z, extraBytes ≤ k * 4096 → blocks ≤ k)
    ∧ Js.representable blocks = true
    ∧ (blocks ≤ Js.Number_MAX_SAFE_INTEGER →
       Js.Number_toString blocks = pretty blocks).
Proof.
  intros Hpos Hrep. exists (extraBlocks extraBytes).
  destruct (extraBlocks_bounds extraBytes) as [Hlo Hup].
  split_and!.
  - unfold createExt2Command. cbv zeta.
    rewrite (Number_toString_safe blockSize) by (unfold blockSize; lia).
    reflexivity.
  - lia.
  - exact Hup.
  - intros k Hk. lia.
  - by apply representable_blocks.
  - unfold Js.Number_MAX_SAFE_INTEGER. intros Hsafe.
    apply Number_toString_safe. lia.
Qed.

Lemma createExt2Command_rounds_up_witness :
  0 ≤ 10485761
  ∧ Js.representable 10485761 = true
  ∧ ∃ blocks : Z,
      createExt2Command 10485761
      = [ "xgenext2fs"; "--tarball"; "/tmp/input"; "--block-size"; "4096";
          "--faketime"; "-r"; "+" +:+ Js.Number_toString blocks; "/tmp/output" ]
      ∧ 0 ≤ blocks
      ∧ 10485761 ≤ blocks * 4096
      ∧ (∀ k : Z, 10485761 ≤ k * 4096 → blocks ≤ k)
      ∧ Js.representable blocks = true
      ∧ (blocks ≤ Js.Number_MAX_SAFE_INTEGER →
         Js.Number_toString blocks = pretty blocks).
Proof.
  split; [lia|]. split; [reflexivity|].
  apply (createExt2Command_rounds_up 10485761); [lia | reflexivity].
Defined.

(** The extra-size argument on both sides of the safe range: plain
    decimal for the default allowance of 10Mb and one byte more, and
    the exponent notation of the language for 2 ^ 83 bytes, whose
    2 ^ 71 blocks are not below 10 ^ 21. *)
Example createExt2Command_extra_size :
  createExt2Command 10485760 !! 7%nat = Some "+2560"
  ∧ createExt2Command 10485761 !! 7%nat = Some "+2561"
  ∧ Js.representable (2 ^ 83) = true
  ∧ createExt2Command (2 ^ 83) !! 7%nat = Some "+2.3611832414348226e+21".
Proof. repeat split; vm_compute; reflexivity. Qed.

(** C8.  The snapshot command of a configuration carries the configured
    RAM size, the drive label "root" and the fixed input and output
    paths at fixed positions; its "--env=" arguments are exactly the
    environment variables, one each and in order; and it has exactly
    one "--entrypoint=" argument, the last one, whose value is the
    entrypoint sequence followed by the command sequence, joined by
    single spaces. *)
Theorem createMachineSnapshotCommand_contents (info : Info) :
  let command := createMachineSnapshotCommand info in
  let boot := "--entrypoint=" +:+ Js.join " " (entrypoint info ++ cmd info) in
  command !! 0%nat = Some "create_machine_snapshot"
  ∧ command !! 1%nat = Some ("--ram-length=" +:+ ramSize info)
  ∧ command !! 2%nat = Some "--drive-label=root"
  ∧ command !! 3%nat = Some "--drive-filename=/tmp/input"
  ∧ command !! 4%nat = Some "--output=/tmp/output"
  ∧ List.filter is_env_arg command
    = map (λ variable, "--env=" +:+ variable) (env info)
  ∧ (∀ i : nat, (i < length (env info))%nat →
       command !! (6 + i)%nat = (λ variable, "--env=" +:+ variable) <$> env info !! i)
  ∧ List.filter is_entrypoint_arg command = [boot]
  ∧ last command = Some boot.
Proof.
  intros command boot. subst command boot. unfold createMachineSnapshotCommand.
  destruct (cwd_not_env info) as [Hcwd1 Hcwd2].
  set (cwd := match workdir info with
              | Some w => if truthy w then "--workdir=" +:+ w else ""
              | None => ""
              end) in *.
  set (envs := map (λ variable, "--env=" +:+ variable) (env info)).
  repeat split; try reflexivity.
  - cbn [app List.filter]. rewrite Hcwd1.
    change (is_env_arg "create_machine_snapshot") with false.
    change (is_env_arg ("--ram-length=" +:+ ramSize info)) with false.
    change (is_env_arg ("--drive-label=" +:+ "root")) with false.
    change (is_env_arg "--drive-filename=/tmp/input") with false.
    change (is_env_arg "--output=/tmp/output") with false.
    cbn iota. rewrite List.filter_app. unfold envs. rewrite filter_env_args.
    cbn. by rewrite app_nil_r.
  - intros i Hi. cbn [app]. 
    change (6 + i)%nat with (S (S (S (S (S (S i)))))). simpl.
    rewrite lookup_app_l by (unfold envs; by rewrite length_map).
    unfold envs. by rewrite list_lookup_fmap.
  - cbn [app List.filter]. rewrite Hcwd2.
    change (is_entrypoint_arg "create_machine_snapshot") with false.
    change (is_entrypoint_arg ("--ram-length=" +:+ ramSize info)) with false.
    change (is_entrypoint_arg ("--drive-label=" +:+ "root")) with false.
    change (is_entrypoint_arg "--drive-filename=/tmp/input") with false.
    change (is_entrypoint_arg "--output=/tmp/output") with false.
    cbn iota. rewrite List.filter_app. unfold envs.
    rewrite filter_entrypoint_envs. cbn.
    replace (is_entrypoint_arg _) with true; [reflexivity|].
    unfold is_entrypoint_arg. cbn. by destruct (Js.join _ _).
  - rewrite app_assoc. apply last_snoc.
Qed.

(** C10.  When the working directory is absent or the empty string,
    the snapshot command still has an element at the working-directory
    position, the empty string; and the length of the command is seven
    plus the number of environment variables whatever the working
    directory is. *)
Theorem createMachineSnapshotCommand_empty_workdir (info : Info) :
  workdir info = None ∨ workdir info = Some "" →
  createMachineSnapshotCommand info !! 5%nat = Some ""
  ∧ (∀ other : Info,
       env other = env info →
       length (createMachineSnapshotCommand other)
       = length (createMachineSnapshotCommand info))
  ∧ length (createMachineSnapshotCommand info) = (7 + length (env info))%nat.
Proof.
  intros Hwd.
  assert (Hlen : ∀ i : Info,
            length (createMachineSnapshotCommand i) = (7 + length (env i))%nat).
  { intros i. unfold createMachineSnapshotCommand.
    rewrite !length_app, length_map. cbn. lia. }
  split; [|split].
  - unfold createMachineSnapshotCommand. by destruct Hwd as [-> | ->].
  - intros other Henv. by rewrite !Hlen, Henv.
  - apply Hlen.
Qed.

Lemma createMachineSnapshotCommand_empty_workdir_witness :
  createMachineSnapshotCommand Sample.info !! 5%nat = Some ""
  ∧ (∀ other : Info,
       env other = env Sample.info →
       length (createMachineSnapshotCommand other)
       = length (createMachineSnapshotCommand Sample.info))
  ∧ length (createMachineSnapshotCommand Sample.info)
    = (7 + length (env Sample.info))%nat.
Proof.
  apply (createMachineSnapshotCommand_empty_workdir Sample.info).
  left. reflexivity.
Defined.

(** * The metadata validator *)

Section Validator.

Implicit Types (w : World) (info : Info) (this : option Command).

Lemma inspect_found image w imageInfo :
  succeeded (docker w (spawned w)) = true →
  images w !! image = Some imageInfo →
  inspect image w = (Return imageInfo, spawn (ImageInspect image) w).
Proof. intros Hok Himg. unfold inspect. by rewrite Hok, Himg. Qed.

Lemma getImageInfo_found this image w imageInfo :
  succeeded (docker w (spawned w)) = true →
  images w !! image = Some imageInfo →
  build.getImageInfo this image w
  = if String.eqb (Architecture imageInfo) "riscv64"
    then build.check_info this (build.info_of imageInfo) (spawn (ImageInspect image) w)
    else (Throw (build.invalid_architecture imageInfo), spawn (ImageInspect image) w).
Proof.
  intros Hok Himg. unfold build.getImageInfo, mbind, M_bind.
  rewrite (inspect_found _ _ _ Hok Himg).
  by destruct (String.eqb (Architecture imageInfo) "riscv64").
Qed.

(** [check_info] spawns nothing and touches no file; at most it logs
    warnings. *)
Lemma check_info_frame this info w :
  let w' := (build.check_info this info w).2 in
  files w' = files w ∧ containers w' = containers w
  ∧ spawned w' = spawned w ∧ docker w' = docker w
  ∧ images w' = images w.
Proof.
  unfold build.check_info, build.when, mbind, M_bind, mret, M_ret, throw,
    this_warn.
  destruct this, (semver.valid (sdkVersion info)),
    (String.eqb (sdkName info) "cartesi/sdk"),
    (semver.lt (sdkVersion info) CARTESI_DEFAULT_SDK_VERSION),
    (truthy (sdkVersion info)), (truthy (ramSize info)),
    (bool_decide (bytes.parse (dataSize info) = None));
    cbn; repeat split; reflexivity.
Qed.

(** The emptiness test on [entrypoint] and [cmd] never fires: both
    are arrays by then, and an array is truthy. *)
Lemma check_info_never_undefined_boot_command this info w :
  (build.check_info this info w).1 ≠ Throw build.undefined_boot_command.
Proof.
  unfold build.check_info, build.when, mbind, M_bind, mret, M_ret, throw,
    this_warn.
  destruct this, (semver.valid (sdkVersion info)),
    (String.eqb (sdkName info) "cartesi/sdk"),
    (semver.lt (sdkVersion info) CARTESI_DEFAULT_SDK_VERSION),
    (truthy (sdkVersion info)), (truthy (ramSize info)),
    (bool_decide (bytes.parse (dataSize info) = None));
    cbn; discriminate.
Qed.

Lemma getImageInfo_never_undefined_boot_command this image w :
  (build.getImageInfo this image w).1 ≠ Throw build.undefined_boot_command.
Proof.
  unfold build.getImageInfo, mbind, M_bind, inspect.
  destruct (succeeded _); [destruct (images w !! image) as [imageInfo|]|];
    try (cbn; discriminate).
  unfold build.when.
  destruct (String.eqb (Architecture imageInfo) "riscv64"); cbn.
  - apply check_info_never_undefined_boot_command.
  - discriminate.
Qed.

Lemma check_info_invalid_version info w :
  semver.valid (sdkVersion info) = false →
  build.check_info None info w
  = (Throw (TypeError "Cannot read properties of undefined (reading 'warn')"),
     w).
Proof.
  intros Hv. unfold build.check_info, build.when, mbind, M_bind. cbn.
  by rewrite Hv.
Qed.

Lemma check_info_old_version this info w :
  semver.valid (sdkVersion info) = true →
  sdkName info = "cartesi/sdk" →
  semver.lt (sdkVersion info) CARTESI_DEFAULT_SDK_VERSION = true →
  build.check_info this info w = (Throw (build.unsupported_sdk_version info), w).
Proof.
  intros Hv Hn Hlt. unfold build.check_info, build.when, mbind, M_bind. cbn.
  by rewrite Hv, Hn, Hlt.
Qed.

Lemma check_info_ok this info w :
  semver.valid (sdkVersion info) = true →
  (sdkName info = "cartesi/sdk" →
   semver.lt (sdkVersion info) CARTESI_DEFAULT_SDK_VERSION = false) →
  truthy (sdkVersion info) = true →
  truthy (ramSize info) = true →
  bytes.parse (dataSize info) ≠ None →
  build.check_info this info w = (Return info, w).
Proof.
  intros Hv Hlt Hsv Hram Hbytes.
  unfold build.check_info, build.when, mbind, M_bind. cbn.
  rewrite Hv, Hsv, Hram, bool_decide_false by done. cbn.
  destruct (String.eqb_spec (sdkName info) "cartesi/sdk") as [Hn|Hn]; cbn.
  - by rewrite (Hlt Hn).
  - done.
Qed.

(** A valid version at the floor passes the version check whatever
    else the validator finds. *)
Lemma check_info_floor_not_unsupported this info w :
  semver.lt (sdkVersion info) CARTESI_DEFAULT_SDK_VERSION = false →
  (build.check_info this info w).1 ≠ Throw (build.unsupported_sdk_version info).
Proof.
  intros Hlt.
  unfold build.check_info, build.when, mbind, M_bind, mret, M_ret, throw,
    this_warn.
  rewrite Hlt.
  destruct this, (semver.valid (sdkVersion info)),
    (String.eqb (sdkName info) "cartesi/sdk"),
    (truthy (sdkVersion info)), (truthy (ramSize info)),
    (bool_decide (bytes.parse (dataSize info) = None));
    cbn; discriminate.
Qed.

End Validator.

(** * Spawned processes and the file system *)

Section Effects.

Implicit Types (w : World) (c : docker_cmd) (p q : path).

Lemma docker_spawn c w : docker (spawn c w) = docker w.
Proof.
  unfold spawn, docker_effect.
  destruct c; repeat case_match; reflexivity.
Qed.

Lemma spawned_spawn c w : spawned (spawn c w) = S (spawned w).
Proof.
  unfold spawn, docker_effect.
  destruct c; repeat case_match; reflexivity.
Qed.

Lemma log_spawn c w : log (spawn c w) = log w ++ [Spawn c].
Proof.
  unfold spawn, docker_effect.
  destruct c; repeat case_match; reflexivity.
Qed.

Lemma images_spawn c w : images (spawn c w) = images w.
Proof.
  unfold spawn, docker_effect.
  destruct c; repeat case_match; reflexivity.
Qed.

Lemma outcome_at_spawn c w k :
  outcome_at (spawn c w) k = outcome_at w (S k).
Proof.
  unfold outcome_at. rewrite docker_spawn, spawned_spawn.
  f_equal. lia.
Qed.

Lemma outcome_at_0 w : docker w (spawned w) = outcome_at w 0.
Proof. unfold outcome_at. f_equal. lia. Qed.

(** Spawning a process removes no file. *)
Lemma files_spawn_mono c w p : p ∈ files w → p ∈ files (spawn c w).
Proof.
  unfold spawn, docker_effect.
  destruct c; repeat case_match; cbn; set_solver.
Qed.

(** A copy out of a container that succeeds writes its destination. *)
Lemma files_spawn_cp cid p w :
  succeeded (outcome_at w 0) = true →
  p ∈ files (spawn (ContainerCp cid p) w).
Proof.
  rewrite <- outcome_at_0. intros Hok. unfold spawn, docker_effect.
  rewrite Hok. cbn. set_solver.
Qed.

Lemma files_spawn_inspect image w :
  files (spawn (ImageInspect image) w) = files w.
Proof. reflexivity. Qed.

Lemma containers_spawn_create i s a w :
  succeeded (outcome_at w 0) = true →
  containers (spawn (ContainerCreate i s a) w)
  = {[ stdout (outcome_at w 0) ]} ∪ containers w.
Proof.
  rewrite <- outcome_at_0. intros Hok. unfold spawn, docker_effect.
  by rewrite Hok.
Qed.

Lemma containers_spawn_start cid w :
  containers (spawn (ContainerStart cid) w) = containers w.
Proof. reflexivity. Qed.

Lemma containers_spawn_cp cid p w :
  containers (spawn (ContainerCp cid p) w) = containers w.
Proof. unfold spawn, docker_effect. by case_match. Qed.

Lemma fs_remove_spec p w :
  fs_remove p w
  = (Return (),
     with_files (filter (λ f, ¬ p `prefix_of` f) (files w))
                (record (Remove p) w)).
Proof. reflexivity. Qed.

(** Once removed, an entry is absent, whether it was there or not. *)
Lemma fs_remove_absent p w : p ∉ files (fs_remove p w).2.
Proof. cbn. rewrite elem_of_filter. intros [Hn _]. by apply Hn. Qed.

Lemma fs_remove_other p q w :
  ¬ (p `prefix_of` q) → q ∈ files w → q ∈ files (fs_remove p w).2.
Proof. intros Hn Hq. cbn. by apply elem_of_filter. Qed.

Lemma fs_remove_subset p q w :
  q ∈ files (fs_remove p w).2 → q ∈ files w.
Proof. cbn. rewrite elem_of_filter. tauto. Qed.

(** An emptied working area holds nothing but itself. *)
Lemma fs_emptyDir_root w :
  (fs_emptyDir [] w).1 = Return ()
  ∧ files (fs_emptyDir [] w).2 = {[ [] ]}
  ∧ log (fs_emptyDir [] w).2 = log w ++ [EmptyDir []]
  ∧ containers (fs_emptyDir [] w).2 = containers w
  ∧ docker (fs_emptyDir [] w).2 = docker w
  ∧ spawned (fs_emptyDir [] w).2 = spawned w
  ∧ images (fs_emptyDir [] w).2 = images w.
Proof.
  repeat split. cbn. apply set_eq. intros p.
  rewrite elem_of_union, elem_of_filter. split; [|tauto].
  intros [H | [Hn _]]; [exact H|]. destruct Hn. apply prefix_nil.
Qed.

End Effects.

(** * The one-shot container run *)

Section SdkRun.

Variables (sdkImage : string) (cmd : list string) (inputPath outputPath : path).
Implicit Types (w : World).

Let create := ContainerCreate inputPath sdkImage cmd.

(** [sdkRun], one spawned process after the other: each step runs
    only when the one before it has succeeded. *)
Lemma sdkRun_steps w :
  build.sdkRun sdkImage cmd inputPath outputPath w =
  let cid := stdout (outcome_at w 0) in
  let w1 := spawn create w in
  let w2 := spawn (ContainerStart cid) w1 in
  let w3 := spawn (ContainerCp cid outputPath) w2 in
  let w4 := spawn (ContainerStop cid) w3 in
  let w5 := spawn (ContainerRm cid) w4 in
  if negb (succeeded (outcome_at w 0)) then
    (Throw (ExecaError create (exitCode (outcome_at w 0))), w1)
  else if negb (succeeded (outcome_at w 1)) then
    (Throw (ExecaError (ContainerStart cid) (exitCode (outcome_at w 1))), w2)
  else if negb (succeeded (outcome_at w 2)) then
    (Throw (ExecaError (ContainerCp cid outputPath)
                       (exitCode (outcome_at w 2))), w3)
  else if negb (succeeded (outcome_at w 3)) then
    (Throw (ExecaError (ContainerStop cid) (exitCode (outcome_at w 3))), w4)
  else if negb (succeeded (outcome_at w 4)) then
    (Throw (ExecaError (ContainerRm cid) (exitCode (outcome_at w 4))), w5)
  else (Return (), w5).
Proof.
  unfold build.sdkRun, mbind, M_bind, execa. cbv zeta. fold create.
  rewrite outcome_at_0.
  destruct (succeeded (outcome_at w 0)); cbn beta iota; [|reflexivity].
  rewrite outcome_at_0, outcome_at_spawn.
  destruct (succeeded (outcome_at w 1)); cbn beta iota; [|reflexivity].
  rewrite outcome_at_0, !outcome_at_spawn.
  destruct (succeeded (outcome_at w 2)); cbn beta iota; [|reflexivity].
  rewrite outcome_at_0, !outcome_at_spawn.
  destruct (succeeded (outcome_at w 3)); cbn beta iota; [|reflexivity].
  rewrite outcome_at_0, !outcome_at_spawn.
  destruct (succeeded (outcome_at w 4)); reflexivity.
Qed.

Lemma sdkRun_docker w :
  docker (build.sdkRun sdkImage cmd inputPath outputPath w).2 = docker w.
Proof.
  rewrite sdkRun_steps. cbv zeta.
  repeat case_match; cbn [snd]; by rewrite !docker_spawn.
Qed.

Lemma sdkRun_files_mono w p :
  p ∈ files w →
  p ∈ files (build.sdkRun sdkImage cmd inputPath outputPath w).2.
Proof.
  intros Hp. rewrite sdkRun_steps. cbv zeta.
  repeat case_match; cbn [snd]; by repeat apply files_spawn_mono.
Qed.

(** A run that returns has spawned five processes and written its
    output. *)
Lemma sdkRun_Return w w' :
  build.sdkRun sdkImage cmd inputPath outputPath w = (Return (), w') →
  outputPath ∈ files w' ∧ spawned w' = (spawned w + 5)%nat
  ∧ docker w' = docker w.
Proof.
  rewrite sdkRun_steps. cbv zeta.
  destruct (succeeded (outcome_at w 0)) eqn:H0; [|discriminate].
  destruct (succeeded (outcome_at w 1)) eqn:H1; [|discriminate].
  destruct (succeeded (outcome_at w 2)) eqn:H2; [|discriminate].
  destruct (succeeded (outcome_at w 3)) eqn:H3; [|discriminate].
  destruct (succeeded (outcome_at w 4)) eqn:H4; [|discriminate].
  cbn [negb]. intros Heq. apply (f_equal snd) in Heq. cbn [snd] in Heq.
  subst w'. split; [|split].
  - do 2 apply files_spawn_mono. apply files_spawn_cp.
    by rewrite !outcome_at_spawn.
  - rewrite !spawned_spawn. lia.
  - by rewrite !docker_spawn.
Qed.

End SdkRun.

(** * The pipeline *)

Section Pipeline.

Implicit Types (w : World) (p : path).

Lemma bind_Return_inv {A B} (m : M A) (k : A → M B) w b w' :
  (m ≫= k) w = (Return b, w') →
  ∃ a w1, m w = (Return a, w1) ∧ k a w1 = (Return b, w').
Proof.
  unfold mbind, M_bind. destruct (m w) as [[a|e] w1]; [eauto | discriminate].
Qed.

Lemma try_finally_Return_inv {A} (body : M A) (fin : M unit) w a w' :
  try_finally body fin w = (Return a, w') →
  ∃ w1, body w = (Return a, w1) ∧ fin w1 = (Return (), w').
Proof.
  unfold try_finally. destruct (body w) as [r w1].
  destruct (fin w1) as [[[]|e] w2] eqn:Hfin; [|discriminate].
  intros [= -> ->]. eauto.
Qed.

Lemma run_result {A} (r : completion A * World) (c : completion A) :
  r.1 = c → r = (c, r.2).
Proof. destruct r. cbn. by intros ->. Qed.

Lemma getImageInfo_files this image w :
  files (build.getImageInfo this image w).2 = files w.
Proof.
  unfold build.getImageInfo, mbind, M_bind, inspect.
  destruct (succeeded _); [destruct (images w !! image) as [imageInfo|]|];
    try reflexivity.
  unfold build.when.
  destruct (String.eqb (Architecture imageInfo) "riscv64"); cbn [negb];
    [|reflexivity].
  destruct (check_info_frame this (build.info_of imageInfo)
              (spawn (ImageInspect image) w)) as [Hf _].
  unfold mret, M_ret. cbn beta iota. exact Hf.
Qed.

Lemma stages_Return appImage imageInfo w w' :
  build.stages appImage imageInfo w = (Return (), w') →
  ["image.ext2"] ∈ files w' ∧ ["image"] ∈ files w'.
Proof.
  unfold build.stages, getAbsolutePath. cbv zeta. intros H.
  apply bind_Return_inv in H as ([] & w1 & _ & H).
  apply bind_Return_inv in H as ([] & w2 & _ & H).
  apply bind_Return_inv in H as ([] & w3 & Hext2 & H).
  apply bind_Return_inv in H as ([] & w4 & Hsnap & H).
  apply sdkRun_Return in Hext2 as [Hext2 _].
  pose proof (sdkRun_files_mono
                (sdkName imageInfo +:+ ":" +:+ sdkVersion imageInfo)
                (createMachineSnapshotCommand imageInfo)
                ["image.ext2"] ["image"] w3 _ Hext2) as Hkeep.
  rewrite Hsnap in Hkeep. apply sdkRun_Return in Hsnap as [Hsnap _].
  unfold fs_chmod in H. case_decide; [|discriminate].
  apply (f_equal snd) in H. cbn [snd] in H. by subst w'.
Qed.

Lemma cleanup_spec w :
  build.cleanup w
  = (Return (), (fs_remove ["image.tar"] (fs_remove ["image.gnutar"] w).2).2).
Proof. reflexivity. Qed.

Lemma cleanup_absent w :
  (["image.tar"] ∉ files (build.cleanup w).2)
  ∧ (["image.gnutar"] ∉ files (build.cleanup w).2).
Proof.
  rewrite cleanup_spec. cbn [snd]. split.
  - apply fs_remove_absent.
  - intros H. apply fs_remove_subset in H. by apply fs_remove_absent in H.
Qed.

Lemma cleanup_keeps p w :
  ¬ (["image.gnutar"] `prefix_of` p) → ¬ (["image.tar"] `prefix_of` p) →
  p ∈ files w → p ∈ files (build.cleanup w).2.
Proof.
  intros Hg Ht Hp. rewrite cleanup_spec. cbn [snd].
  by apply fs_remove_other, fs_remove_other.
Qed.

Lemma not_prefix_singleton (a b : string) (l : list string) :
  a ≠ b → ¬ ([a] `prefix_of` (b :: l)).
Proof. intros Hne [k Hk]. injection Hk as -> _. by apply Hne. Qed.

Lemma run_unfold imageHash w :
  build.run imageHash w
  = match build.getImageInfo None imageHash (fs_emptyDir [] w).2 with
    | (Return imageInfo, w1) =>
        try_finally (build.stages imageHash imageInfo) build.cleanup w1
    | (Throw e, w1) => (Throw e, w1)
    end.
Proof. reflexivity. Qed.

(** However a run ends, neither archive is left in the working
    area. *)
Lemma run_removes_archives imageHash w :
  (["image.tar"] ∉ files (build.run imageHash w).2)
  ∧ (["image.gnutar"] ∉ files (build.run imageHash w).2).
Proof.
  rewrite run_unfold.
  pose proof (getImageInfo_files None imageHash (fs_emptyDir [] w).2) as Hf.
  destruct (build.getImageInfo None imageHash (fs_emptyDir [] w).2)
    as [[imageInfo|e] w1]; cbn [snd] in *.
  - unfold try_finally.
    destruct (build.stages imageHash imageInfo w1) as [r w2].
    pose proof (cleanup_absent w2) as Habs.
    rewrite cleanup_spec in *. cbn [snd] in *. exact Habs.
  - rewrite Hf. destruct (fs_emptyDir_root w) as (_ & -> & _).
    split; by rewrite elem_of_singleton.
Qed.

End Pipeline.

(** * The claims about the pipeline and the validator *)

(** C1.  The code does not remove the block image: every run of
    [build] that succeeds leaves image.ext2 in the working area next
    to the snapshot, while image.tar and image.gnutar are gone. *)
Theorem run_success_keeps_ext2 (imageHash : string) (w w' : World) :
  build.run imageHash w = (Return (), w') →
  ["image"] ∈ files w'
  ∧ ["image.ext2"] ∈ files w'
  ∧ (["image.tar"] ∉ files w')
  ∧ (["image.gnutar"] ∉ files w').
Proof.
  intros Hrun.
  destruct (run_removes_archives imageHash w) as [Htar Hgnu].
  rewrite Hrun in Htar, Hgnu. cbn [snd] in Htar, Hgnu.
  rewrite run_unfold in Hrun.
  destruct (build.getImageInfo None imageHash (fs_emptyDir [] w).2)
    as [[imageInfo|e] w1]; [|discriminate].
  apply try_finally_Return_inv in Hrun as (w2 & Hstages & Hclean).
  apply stages_Return in Hstages as [Hext2 Hsnap].
  apply (f_equal snd) in Hclean. cbn [snd] in Hclean. subst w'.
  repeat split; try assumption.
  - apply cleanup_keeps; [| |exact Hsnap]; by apply not_prefix_singleton.
  - apply cleanup_keeps; [| |exact Hext2]; by apply not_prefix_singleton.
Qed.

Lemma run_success_keeps_ext2_witness :
  let w := Sample.world Sample.app Sample.all_succeed in
  let w' := (build.run "app" w).2 in
  ["image"] ∈ files w'
  ∧ ["image.ext2"] ∈ files w'
  ∧ (["image.tar"] ∉ files w')
  ∧ (["image.gnutar"] ∉ files w').
Proof.
  intros w w'. subst w'.
  apply (run_success_keeps_ext2 "app" w).
  apply run_result. vm_compute. reflexivity.
Defined.

(** What [sdkRun] does on every path, the defect of C2 included.  The
    processes it spawns are, in order, create, start, copy-out, stop
    and remove, each only when the one before it exited with 0.  So
    stop is spawned exactly when create, start and copy-out all
    succeeded, and remove exactly when stop succeeded as well; after a
    failed start or copy-out the container is still there. *)
Theorem sdkRun_teardown_follows_success
    (sdkImage : string) (cmd : list string) (inputPath outputPath : path)
    (w : World) :
  let ok := λ k, succeeded (outcome_at w k) in
  let cid := stdout (outcome_at w 0) in
  let r := build.sdkRun sdkImage cmd inputPath outputPath w in
  let new := events_since w r.2 in
  new = Spawn (ContainerCreate inputPath sdkImage cmd) ::
        (if ok 0%nat then
           Spawn (ContainerStart cid) ::
           (if ok 1%nat then
              Spawn (ContainerCp cid outputPath) ::
              (if ok 2%nat then
                 Spawn (ContainerStop cid) ::
                 (if ok 3%nat then [Spawn (ContainerRm cid)] else [])
               else [])
            else [])
         else [])
  ∧ (Spawn (ContainerStop cid) ∈ new ↔ ok 0%nat && ok 1%nat && ok 2%nat = true)
  ∧ (Spawn (ContainerRm cid) ∈ new
     ↔ ok 0%nat && ok 1%nat && ok 2%nat && ok 3%nat = true)
  ∧ (ok 0%nat && negb (ok 1%nat && ok 2%nat) = true →
     (r.1 = Throw (ExecaError (ContainerStart cid) (exitCode (outcome_at w 1)))
      ∨ r.1 = Throw (ExecaError (ContainerCp cid outputPath)
                                (exitCode (outcome_at w 2))))
     ∧ cid ∈ containers r.2).
Proof.
  intros ok cid r new. subst new r.
  rewrite sdkRun_steps. cbv zeta. fold cid. unfold events_since.
  fold (ok 0%nat) (ok 1%nat) (ok 2%nat) (ok 3%nat) (ok 4%nat).
  assert (Hcid : ok 0%nat = true →
            cid ∈ containers (spawn (ContainerCreate inputPath sdkImage cmd) w)).
  { intros H0. rewrite containers_spawn_create by exact H0.
    apply elem_of_union_l, elem_of_singleton. reflexivity. }
  destruct (ok 0%nat) eqn:H0, (ok 1%nat) eqn:H1, (ok 2%nat) eqn:H2,
    (ok 3%nat) eqn:H3, (ok 4%nat) eqn:H4;
    cbn [negb andb fst snd];
    rewrite ?log_spawn, <- ?app_assoc, drop_app_length; cbn [app];
    (split; [reflexivity|]);
    (split; [rewrite ?elem_of_cons, elem_of_nil; split;
             [intros H; repeat destruct H as [H|H]; done | try done; tauto]|]);
    (split; [rewrite ?elem_of_cons, elem_of_nil; split;
             [intros H; repeat destruct H as [H|H]; done | try done; tauto]|]);
    try (intros; discriminate);
    intros _; (split; [tauto|]);
    rewrite ?containers_spawn_cp, ?containers_spawn_start; by apply Hcid.
Qed.

(** C2.  The code misses the teardown the claim requires.  On a run
    whose start step exits with 1, and on one whose copy-out step
    does, [sdkRun] rejects with that error at once: neither stop nor
    remove is spawned and the container it created is left behind,
    although the same function stops and removes the container when
    every step succeeds. *)
Lemma sdkRun_failure_skips_teardown :
  (let w := Sample.world Sample.app (Sample.fails_at 1 1) in
   let r := build.sdkRun "cartesi/sdk:0.9.0" createRootfsTarCommand
              ["image.tar"] ["image.gnutar"] w in
   r.1 = Throw (ExecaError (ContainerStart "c0") (Some 1))
   ∧ (Spawn (ContainerStop "c0") ∉ log r.2)
   ∧ (Spawn (ContainerRm "c0") ∉ log r.2)
   ∧ "c0" ∈ containers r.2)
  ∧ (let w := Sample.world Sample.app (Sample.fails_at 2 1) in
     let r := build.sdkRun "cartesi/sdk:0.9.0" createRootfsTarCommand
                ["image.tar"] ["image.gnutar"] w in
     r.1 = Throw (ExecaError (ContainerCp "c0" ["image.gnutar"]) (Some 1))
     ∧ (Spawn (ContainerStop "c0") ∉ log r.2)
     ∧ (Spawn (ContainerRm "c0") ∉ log r.2)
     ∧ "c0" ∈ containers r.2).
Proof.
  split; cbv zeta; (split; [vm_compute; reflexivity|]);
    (split; [apply (bool_decide_unpack _); vm_compute; exact I|]);
    (split; [apply (bool_decide_unpack _); vm_compute; exact I|]);
    apply (bool_decide_unpack _); vm_compute; exact I.
Qed.

(** C3.  The validator never fails with the missing-boot-command
    error: the test is made on the two arrays after they have been
    defaulted, and an array is truthy.  An image with neither
    ENTRYPOINT nor CMD gets a configuration whose two sequences are
    empty, and the pipeline runs its stages with it. *)
Theorem getImageInfo_accepts_empty_boot_command :
  (∀ (this : option Command) (image : string) (w : World),
     (build.getImageInfo this image w).1 ≠ Throw build.undefined_boot_command)
  ∧ (let w := Sample.world Sample.no_boot_command Sample.all_succeed in
     Entrypoint (Config Sample.no_boot_command) = None
     ∧ Cmd (Config Sample.no_boot_command) = None
     ∧ (build.getImageInfo None "app" w).1
       = Return (build.info_of Sample.no_boot_command)
     ∧ entrypoint (build.info_of Sample.no_boot_command) = []
     ∧ cmd (build.info_of Sample.no_boot_command) = []
     ∧ (build.run "app" w).1 = Return ()).
Proof.
  split; [exact getImageInfo_never_undefined_boot_command|].
  cbv zeta. repeat split; vm_compute; reflexivity.
Qed.

(** C4.  As [run] calls it, [getImageInfo] has no [this]: for an
    inspected riscv64 image whose sdk version is not a valid semantic
    version, the attempt to warn throws a TypeError, no warning is
    logged, and the pipeline ends there, having only emptied the
    working area and inspected the image. *)
Theorem run_invalid_sdk_version_aborts
    (imageHash : string) (w : World) (imageInfo : Inspected) :
  succeeded (outcome_at w 0) = true →
  images w !! imageHash = Some imageInfo →
  Architecture imageInfo = "riscv64" →
  semver.valid (sdkVersion (build.info_of imageInfo)) = false →
  let crash :=
    TypeError "Cannot read properties of undefined (reading 'warn')" in
  (build.getImageInfo None imageHash w).1 = Throw crash
  ∧ events_since w (build.getImageInfo None imageHash w).2
    = [Spawn (ImageInspect imageHash)]
  ∧ (build.run imageHash w).1 = Throw crash
  ∧ events_since w (build.run imageHash w).2
    = [EmptyDir []; Spawn (ImageInspect imageHash)].
Proof.
  intros Hok Himg Harch Hver crash.
  assert (Hinfo : ∀ w0, docker w0 = docker w → spawned w0 = spawned w →
            images w0 = images w →
            build.getImageInfo None imageHash w0
            = (Throw crash, spawn (ImageInspect imageHash) w0)).
  { intros w0 Hd Hs Hi.
    rewrite (getImageInfo_found None imageHash w0 imageInfo).
    - rewrite Harch. cbn [String.eqb]. rewrite ?Ascii.eqb_refl.
      change ("riscv64" =? "riscv64")%string with true. cbn iota.
      by apply check_info_invalid_version.
    - by rewrite Hd, Hs, outcome_at_0.
    - by rewrite Hi. }
  rewrite (Hinfo w) by reflexivity. cbn [fst snd].
  split; [reflexivity|]. split.
  { unfold events_since. by rewrite log_spawn, drop_app_length. }
  rewrite run_unfold.
  destruct (fs_emptyDir_root w) as (_ & _ & Hlog & _ & Hd & Hs & Hi).
  rewrite (Hinfo _ Hd Hs Hi). cbn [fst snd].
  split; [reflexivity|].
  unfold events_since. rewrite log_spawn, Hlog, <- app_assoc.
  by rewrite drop_app_length.
Qed.

Lemma run_invalid_sdk_version_aborts_witness :
  let w := Sample.world Sample.tagged_sdk Sample.all_succeed in
  let crash :=
    TypeError "Cannot read properties of undefined (reading 'warn')" in
  (build.getImageInfo None "app" w).1 = Throw crash
  ∧ events_since w (build.getImageInfo None "app" w).2
    = [Spawn (ImageInspect "app")]
  ∧ (build.run "app" w).1 = Throw crash
  ∧ events_since w (build.run "app" w).2
    = [EmptyDir []; Spawn (ImageInspect "app")].
Proof.
  intros w.
  apply (run_invalid_sdk_version_aborts "app" w Sample.tagged_sdk);
    vm_compute; reflexivity.
Defined.

(** With a command object for [this], the same image gets the warning
    and the validation goes on with the version string as it is. *)
Lemma getImageInfo_warns_with_this (c : Command) :
  let w := Sample.world Sample.tagged_sdk Sample.all_succeed in
  (build.getImageInfo (Some c) "app" w).1
  = Return (build.info_of Sample.tagged_sdk)
  ∧ sdkVersion (build.info_of Sample.tagged_sdk) = "latest"
  ∧ events_since w (build.getImageInfo (Some c) "app" w).2
    = [Spawn (ImageInspect "app"); Warn "sdk version is not a valid semver"].
Proof. cbv zeta. repeat split; vm_compute; reflexivity. Qed.

(** C5.  For an inspected riscv64 image whose sdk name is
    "cartesi/sdk" and whose sdk version [v] is a valid semantic
    version: when [v] is below 0.9.0 the validator fails with the
    unsupported-version error; when [v] is 0.9.0 itself the validator
    does not fail with that error, and it returns the configuration as
    soon as the RAM size is not empty and the data size parses. *)
Theorem getImageInfo_minimum_sdk_version
    (this : option Command) (image : string) (w : World)
    (imageInfo : Inspected) :
  succeeded (outcome_at w 0) = true →
  images w !! image = Some imageInfo →
  Architecture imageInfo = "riscv64" →
  sdkName (build.info_of imageInfo) = "cartesi/sdk" →
  semver.valid (sdkVersion (build.info_of imageInfo)) = true →
  let info := build.info_of imageInfo in
  let r := build.getImageInfo this image w in
  (semver.lt (sdkVersion info) "0.9.0" = true →
   r.1 = Throw (build.unsupported_sdk_version info))
  ∧ (sdkVersion info = "0.9.0" →
     r.1 ≠ Throw (build.unsupported_sdk_version info)
     ∧ (truthy (ramSize info) = true →
        bytes.parse (dataSize info) ≠ None →
        r.1 = Return info)).
Proof.
  intros Hok Himg Harch Hname Hvalid info r. subst r.
  rewrite (getImageInfo_found this image w imageInfo)
    by (by rewrite ?outcome_at_0).
  rewrite Harch. change ("riscv64" =? "riscv64")%string with true. cbn iota.
  fold info in Hname, Hvalid. split.
  - intros Hlt. by rewrite check_info_old_version.
  - intros Hv. split.
    + apply check_info_floor_not_unsupported. fold info. by rewrite Hv.
    + intros Hram Hbytes. rewrite check_info_ok; try done.
      * intros _. fold info. by rewrite Hv.
      * fold info. by rewrite Hv.
Qed.

Lemma getImageInfo_minimum_sdk_version_witness :
  let w := Sample.world Sample.old_sdk Sample.all_succeed in
  let info := build.info_of Sample.old_sdk in
  let r := build.getImageInfo None "app" w in
  (semver.lt (sdkVersion info) "0.9.0" = true →
   r.1 = Throw (build.unsupported_sdk_version info))
  ∧ (sdkVersion info = "0.9.0" →
     r.1 ≠ Throw (build.unsupported_sdk_version info)
     ∧ (truthy (ramSize info) = true →
        bytes.parse (dataSize info) ≠ None →
        r.1 = Return info)).
Proof.
  intros w.
  apply (getImageInfo_minimum_sdk_version None "app" w Sample.old_sdk);
    vm_compute; reflexivity.
Defined.

(** The two sides of the floor on sample images: 0.8.9 is rejected,
    0.9.0 is accepted. *)
Example getImageInfo_rejects_0_8_9 :
  (build.getImageInfo None "app"
     (Sample.world Sample.old_sdk Sample.all_succeed)).1
  = Throw (Error "Unsupported sdk version: 0.8.9 (used) < 0.9.0 (minimum).").
Proof. vm_compute. reflexivity. Qed.

Example getImageInfo_accepts_0_9_0 :
  (build.getImageInfo None "app"
     (Sample.world Sample.minimum_sdk Sample.all_succeed)).1
  = Return (build.info_of Sample.minimum_sdk)
  ∧ sdkName (build.info_of Sample.minimum_sdk) = "cartesi/sdk"
  ∧ sdkVersion (build.info_of Sample.minimum_sdk) = "0.9.0".
Proof. repeat split; vm_compute; reflexivity. Qed.

(** C6.  For an inspected image whose architecture is not riscv64 the
    validator fails with the invalid-architecture error; [run] ends
    with that error having only emptied the working area and
    inspected the image: no stage process is spawned, no container is
    created and the working area holds no artifact. *)
Theorem run_rejects_architecture
    (this : option Command) (imageHash : string) (w : World)
    (imageInfo : Inspected) :
  succeeded (outcome_at w 0) = true →
  images w !! imageHash = Some imageInfo →
  Architecture imageInfo ≠ "riscv64" →
  (build.getImageInfo this imageHash w).1
  = Throw (build.invalid_architecture imageInfo)
  ∧ (build.run imageHash w).1 = Throw (build.invalid_architecture imageInfo)
  ∧ events_since w (build.run imageHash w).2
    = [EmptyDir []; Spawn (ImageInspect imageHash)]
  ∧ files (build.run imageHash w).2 = {[ [] ]}
  ∧ containers (build.run imageHash w).2 = containers w.
Proof.
  intros Hok Himg Harch.
  apply String.eqb_neq in Harch.
  assert (Hinfo : ∀ this0 w0, docker w0 = docker w → spawned w0 = spawned w →
            images w0 = images w →
            build.getImageInfo this0 imageHash w0
            = (Throw (build.invalid_architecture imageInfo),
               spawn (ImageInspect imageHash) w0)).
  { intros this0 w0 Hd Hs Hi.
    rewrite (getImageInfo_found this0 imageHash w0 imageInfo).
    - by rewrite Harch.
    - by rewrite Hd, Hs, outcome_at_0.
    - by rewrite Hi. }
  rewrite (Hinfo this w) by reflexivity. split; [reflexivity|].
  rewrite run_unfold.
  destruct (fs_emptyDir_root w) as (_ & Hfiles & Hlog & Hc & Hd & Hs & Hi).
  rewrite (Hinfo _ _ Hd Hs Hi). cbn [fst snd].
  split; [reflexivity|]. split; [|split].
  - unfold events_since. rewrite log_spawn, Hlog, <- app_assoc.
    by rewrite drop_app_length.
  - by rewrite files_spawn_inspect.
  - exact Hc.
Qed.

Lemma run_rejects_architecture_witness :
  let w := Sample.world Sample.amd64 Sample.all_succeed in
  (build.getImageInfo None "app" w).1
  = Throw (build.invalid_architecture Sample.amd64)
  ∧ (build.run "app" w).1 = Throw (build.invalid_architecture Sample.amd64)
  ∧ events_since w (build.run "app" w).2
    = [EmptyDir []; Spawn (ImageInspect "app")]
  ∧ files (build.run "app" w).2 = {[ [] ]}
  ∧ containers (build.run "app" w).2 = containers w.
Proof.
  intros w.
  apply (run_rejects_architecture None "app" w Sample.amd64);
    [vm_compute; reflexivity | vm_compute; reflexivity | discriminate].
Defined.

(** * The run command *)

(** C9.  Once the snapshot hash has been found, [run] spawns compose
    up and then, whatever the outcome of up, compose down with
    "--volumes".  When up exits with 130 its error is swallowed: the
    result of [run] is that of the teardown alone.  When up fails in
    any other way the handler throws the error again, and it is the
    result of [run] unless the teardown fails too, in which case the
    error of the teardown replaces it. *)
Theorem run_swallows_130_and_tears_down
    (this : option Command) (verbose : option bool)
    (blockTime epoch_length : option Z) (listen_port : option string)
    (w : World) (hash : string) :
  Run.getMachineHash w = (Return (Some hash), w) →
  let env :=
    Run.compose_env verbose blockTime epoch_length listen_port (binPath w) in
  let args :=
    Run.compose_args verbose (binPath w) (envfile w)
      (String.substring 2 8 hash) in
  let up := Run.compose_up args (Run.up_args verbose) env in
  let down := Run.compose_down args env in
  let teardown :=
    if succeeded (outcome_at w 1) then Return ()
    else Throw (ExecaError down (exitCode (outcome_at w 1))) in
  let r := Run.run this verbose blockTime epoch_length listen_port w in
  argv down = args ++ ["down"; "--volumes"]
  ∧ events_since w r.2 = [Spawn up; Spawn down]
  ∧ (exitCode (outcome_at w 0) = Some 130 →
     Run.swallow_130 (ExecaError up (Some 130)) = mret ()
     ∧ r.1 = teardown)
  ∧ (succeeded (outcome_at w 0) = false →
     exitCode (outcome_at w 0) ≠ Some 130 →
     let e := ExecaError up (exitCode (outcome_at w 0)) in
     Run.swallow_130 e = throw e
     ∧ r.1 = if succeeded (outcome_at w 1) then Throw e else teardown).
Proof.
  intros Hhash env args up down teardown r.
  split; [reflexivity|].
  assert (Hr : r = try_finally
                     (try_catch (execa up;; mret ()) Run.swallow_130)
                     (execa down;; mret ()) w).
  { subst r. unfold Run.run, mbind at 1, M_bind at 1. rewrite Hhash.
    reflexivity. }
  rewrite Hr. clear Hr r.
  unfold try_finally, try_catch, mbind, M_bind, execa, mret, M_ret.
  rewrite outcome_at_0.
  assert (Hsw : ∀ code, code ≠ Some 130 →
            Run.swallow_130 (ExecaError up code) = throw (ExecaError up code)).
  { intros code Hc. unfold Run.swallow_130. cbn [Run.exn_exitCode].
    by rewrite bool_decide_true. }
  destruct (succeeded (outcome_at w 0)) eqn:Hup; cbn beta iota.
  - rewrite outcome_at_0, outcome_at_spawn.
    assert (Hne : exitCode (outcome_at w 0) ≠ Some 130).
    { unfold succeeded in Hup. intros Heq. by rewrite Heq in Hup. }
    subst teardown.
    destruct (succeeded (outcome_at w 1)); cbn beta iota; cbn [fst snd];
      (split; [unfold events_since;
               by rewrite !log_spawn, <- app_assoc, drop_app_length|]);
      (split; [intros H130; by destruct Hne | intros; discriminate]).
  - destruct (decide (exitCode (outcome_at w 0) = Some 130)) as [H130|Hne].
    + assert (Hsw130 : Run.swallow_130 (ExecaError up (Some 130)) = mret ()).
      { unfold Run.swallow_130. cbn [Run.exn_exitCode].
        by rewrite bool_decide_false by (intros H; by apply H). }
      rewrite H130, Hsw130. unfold mret, M_ret. cbn beta iota.
      rewrite outcome_at_0, outcome_at_spawn. subst teardown.
      destruct (succeeded (outcome_at w 1)); cbn beta iota; cbn [fst snd];
        (split; [unfold events_since;
                 by rewrite !log_spawn, <- app_assoc, drop_app_length|]);
        (split; [intros _; split; reflexivity | intros _ H; by destruct H]).
    + rewrite (Hsw _ Hne). unfold throw. cbn beta iota.
      rewrite outcome_at_0, outcome_at_spawn. subst teardown.
      destruct (succeeded (outcome_at w 1)); cbn beta iota; cbn [fst snd];
        (split; [unfold events_since;
                 by rewrite !log_spawn, <- app_assoc, drop_app_length|]);
        (split; [intros H130; by destruct Hne
                | intros _ _; split; reflexivity]).
Qed.

Lemma run_swallows_130_and_tears_down_witness :
  let w := Sample.built (Sample.fails_at 0 130) in
  let hash :=
    "0x00112233445566778899aabbccddeeff00112233445566778899aabbccddeeff" in
  let env := Run.compose_env None None None None (binPath w) in
  let args :=
    Run.compose_args None (binPath w) (envfile w) (String.substring 2 8 hash) in
  let up := Run.compose_up args (Run.up_args None) env in
  let down := Run.compose_down args env in
  let teardown :=
    if succeeded (outcome_at w 1) then Return ()
    else Throw (ExecaError down (exitCode (outcome_at w 1))) in
  let r := Run.run None None None None None w in
  argv down = args ++ ["down"; "--volumes"]
  ∧ events_since w r.2 = [Spawn up; Spawn down]
  ∧ (exitCode (outcome_at w 0) = Some 130 →
     Run.swallow_130 (ExecaError up (Some 130)) = mret ()
     ∧ r.1 = teardown)
  ∧ (succeeded (outcome_at w 0) = false →
     exitCode (outcome_at w 0) ≠ Some 130 →
     let e := ExecaError up (exitCode (outcome_at w 0)) in
     Run.swallow_130 e = throw e
     ∧ r.1 = if succeeded (outcome_at w 1) then Throw e else teardown).
Proof.
  intros w hash.
  apply (run_swallows_130_and_tears_down None None None None None w hash).
  vm_compute. reflexivity.
Defined.

(** The two cases of C9 on sample runs: up exits with 130 and the run
    returns; up exits with 1 and the run throws that error; the
    teardown is spawned in both. *)
Example run_exit_130_returns :
  let r := Run.run None None None None None
             (Sample.built (Sample.fails_at 0 130)) in
  r.1 = Return () ∧ length (log r.2) = 2%nat.
Proof. cbv zeta. split; vm_compute; reflexivity. Qed.

Example run_exit_1_throws :
  let r := Run.run None None None None None
             (Sample.built (Sample.fails_at 0 1)) in
  (∃ up, r.1 = Throw (ExecaError up (Some 1))) ∧ length (log r.2) = 2%nat.
Proof. cbv zeta. split; [eexists|]; vm_compute; reflexivity. Qed.
(** * Further properties of the stage command builders *)

#[local] Set Warnings "-clear-no-such-hyp".

Section MoreBuilders.

Lemma filter_workdir_envs (l : list string) :
  List.filter is_workdir_arg (map (λ variable, "--env=" +:+ variable) l) = [].
Proof. induction l as [|v l IH]; [reflexivity | exact IH]. Qed.

Lemma is_workdir_arg_workdir (w : string) :
  is_workdir_arg ("--workdir=" +:+ w) = true.
Proof. unfold is_workdir_arg. cbn. by destruct w. Qed.

Lemma append_assoc (a b c : string) : (a +:+ b) +:+ c = a +:+ b +:+ c.
Proof.
  induction a as [|x a IH]; [reflexivity|].
  change (String x ((a +:+ b) +:+ c) = String x (a +:+ b +:+ c)).
  by rewrite IH.
Qed.

Lemma join_app (e c : list string) :
  e ≠ [] → c ≠ [] →
  Js.join " " (e ++ c) = Js.join " " e +:+ " " +:+ Js.join " " c.
Proof.
  intros He Hc. induction e as [|x e IH]; [done|].
  destruct e as [|y e].
  - destruct c as [|z c]; [done|]. reflexivity.
  - change (Js.join " " ((x :: y :: e) ++ c))
      with (x +:+ " " +:+ Js.join " " ((y :: e) ++ c)).
    rewrite IH by done.
    change (Js.join " " (x :: y :: e))
      with (x +:+ " " +:+ Js.join " " (y :: e)).
    by rewrite !append_assoc.
Qed.

End MoreBuilders.

(** X1.  The snapshot command has a "--workdir=" argument exactly when
    the working directory is a non-empty string, and then exactly one,
    carrying that directory; an environment variable that happens to
    read like the option does not count, since it is passed behind
    "--env=". *)
Theorem createMachineSnapshotCommand_workdir (info : Info) :
  List.filter is_workdir_arg (createMachineSnapshotCommand info)
  = match workdir info with
    | Some w => if truthy w then ["--workdir=" +:+ w] else []
    | None => []
    end.
Proof.
  unfold createMachineSnapshotCommand. cbn [app List.filter].
  change (is_workdir_arg "create_machine_snapshot") with false.
  change (is_workdir_arg ("--ram-length=" +:+ ramSize info)) with false.
  change (is_workdir_arg ("--drive-label=" +:+ "root")) with false.
  change (is_workdir_arg "--drive-filename=/tmp/input") with false.
  change (is_workdir_arg "--output=/tmp/output") with false.
  cbn iota. rewrite List.filter_app, filter_workdir_envs. cbn [app List.filter].
  change (is_workdir_arg ("--entrypoint=" +:+ _)) with false. cbn iota.
  destruct (workdir info) as [w|]; [|reflexivity].
  destruct (truthy w); [|reflexivity].
  by rewrite is_workdir_arg_workdir.
Qed.

(** X2.  The boot command passed behind "--entrypoint=" is the
    entrypoint words, then the command words, with one space between
    any two words: there is no stray space when the entrypoint or the
    command is empty, and the text is empty when both are. *)
Theorem createMachineSnapshotCommand_boot_command (info : Info) :
  last (createMachineSnapshotCommand info)
  = Some ("--entrypoint=" +:+ boot_command info)
  ∧ (entrypoint info = [] → boot_command info = Js.join " " (cmd info))
  ∧ (cmd info = [] → boot_command info = Js.join " " (entrypoint info))
  ∧ (entrypoint info ≠ [] → cmd info ≠ [] →
     boot_command info
     = Js.join " " (entrypoint info) +:+ " " +:+ Js.join " " (cmd info)).
Proof.
  assert (Hboot : Js.join " " (entrypoint info ++ cmd info) = boot_command info).
  { unfold boot_command.
    destruct (entrypoint info) as [|x e] eqn:He; [reflexivity|].
    destruct (cmd info) as [|y c] eqn:Hc; [by rewrite app_nil_r|].
    by apply join_app. }
  split; [|split; [|split]].
  - unfold createMachineSnapshotCommand. rewrite app_assoc, last_snoc.
    by rewrite Hboot.
  - unfold boot_command. by intros ->.
  - unfold boot_command. intros ->. by destruct (entrypoint info).
  - unfold boot_command. intros He Hc.
    destruct (entrypoint info), (cmd info); done.
Qed.

(** * Further properties of the validator *)

Section MoreValidator.

Implicit Types (w : World) (info : Info) (this : option Command).

(** The events of [check_info] are warnings, and there is none
    without a [this] to warn through. *)
Lemma check_info_log this info w :
  ∃ ws : list string,
    log (build.check_info this info w).2 = log w ++ map Warn ws
    ∧ (this = None → ws = []).
Proof.
  unfold build.check_info, build.when, mbind, M_bind, mret, M_ret, throw,
    this_warn.
  destruct this, (semver.valid (sdkVersion info)),
    (String.eqb (sdkName info) "cartesi/sdk"),
    (semver.lt (sdkVersion info) CARTESI_DEFAULT_SDK_VERSION),
    (truthy (sdkVersion info)), (truthy (ramSize info)),
    (bool_decide (bytes.parse (dataSize info) = None));
    cbn;
    first
      [ by (exists []; rewrite app_nil_r)
      | by (eexists [_]; split; [reflexivity | done])
      | by (eexists [_; _]; split; [rewrite <- app_assoc; reflexivity | done])
      | by (eexists [_; _; _]; split;
            [rewrite <- !app_assoc; reflexivity | done]) ].
Qed.



Lemma getImageInfo_None_log image w :
  log (build.getImageInfo None image w).2
  = log w ++ [Spawn (ImageInspect image)].
Proof.
  unfold build.getImageInfo, mbind, M_bind, inspect.
  destruct (succeeded _); [destruct (images w !! image) as [imageInfo|]|];
    try (cbn [snd]; apply log_spawn).
  unfold build.when.
  destruct (String.eqb (Architecture imageInfo) "riscv64"); cbn [negb];
    [|cbn [snd]; apply log_spawn].
  unfold mret, M_ret. cbn beta iota.
  destruct (check_info_log None (build.info_of imageInfo)
              (spawn (ImageInspect image) w)) as (ws & -> & Hws).
  rewrite (Hws eq_refl), app_nil_r. apply log_spawn.
Qed.

End MoreValidator.

(** X3.  The validator only reads: whatever the image and however it
    ends, [getImageInfo] spawns exactly one process, the inspection,
    leaves the working area and the containers as they were, and logs
    nothing but warnings after the inspection; called without a [this],
    as [run] calls it, it logs no warning at all. *)
Theorem getImageInfo_only_inspects
    (this : option Command) (image : string) (w : World) :
  let w' := (build.getImageInfo this image w).2 in
  files w' = files w
  ∧ containers w' = containers w
  ∧ spawned w' = S (spawned w)
  ∧ ∃ ws : list string,
      events_since w w' = Spawn (ImageInspect image) :: map Warn ws
      ∧ (this = None → ws = []).
Proof.
  cbv zeta. unfold events_since.
  unfold build.getImageInfo, mbind, M_bind, inspect.
  set (w1 := spawn (ImageInspect image) w).
  assert (Hnone : ∀ r : completion Info,
            files (r, w1).2 = files w ∧ containers (r, w1).2 = containers w
            ∧ spawned (r, w1).2 = S (spawned w)
            ∧ ∃ ws : list string,
                drop (length (log w)) (log (r, w1).2)
                = Spawn (ImageInspect image) :: map Warn ws
                ∧ (this = None → ws = [])).
  { intros r. repeat split. exists []. split; [|done].
    cbn [snd]. unfold w1. by rewrite log_spawn, drop_app_length. }
  destruct (succeeded _); [destruct (images w !! image) as [imageInfo|]|];
    try apply Hnone.
  unfold build.when.
  destruct (String.eqb (Architecture imageInfo) "riscv64"); cbn [negb];
    [|apply Hnone].
  unfold mret, M_ret. cbn beta iota.
  destruct (check_info_frame this (build.info_of imageInfo) w1)
    as (Hf & Hc & Hs & _).
  destruct (check_info_log this (build.info_of imageInfo) w1)
    as (ws & Hlog & Hws).
  rewrite Hf, Hc, Hs, Hlog. repeat split. exists ws. split; [|exact Hws].
  unfold w1. by rewrite log_spawn, <- app_assoc, drop_app_length.
Qed.

(** X4.  The defaults are consistent with the rules: an inspected
    riscv64 image that carries none of the four labels is accepted
    with data size "10Mb", RAM size "128Mi", sdk name "cartesi/sdk" and
    sdk version "0.9.0", with or without a [this] and whatever its
    entrypoint, command, environment and working directory. *)
Theorem getImageInfo_defaults
    (this : option Command) (image : string) (w : World)
    (imageInfo : Inspected) :
  succeeded (outcome_at w 0) = true →
  images w !! image = Some imageInfo →
  Architecture imageInfo = "riscv64" →
  (∀ label : string,
     label ∈ [CARTESI_LABEL_DATA_SIZE; CARTESI_LABEL_RAM_SIZE;
              CARTESI_LABEL_SDK_NAME; CARTESI_LABEL_SDK_VERSION] →
     Js.or (Labels (Config imageInfo)) ∅ !! label = None) →
  let info := build.info_of imageInfo in
  build.getImageInfo this image w = (Return info, spawn (ImageInspect image) w)
  ∧ dataSize info = "10Mb"
  ∧ ramSize info = "128Mi"
  ∧ sdkName info = "cartesi/sdk"
  ∧ sdkVersion info = "0.9.0".
Proof.
  intros Hok Himg Harch Hlabels info.
  assert (Hd : dataSize info = "10Mb").
  { unfold info, build.info_of. cbn [dataSize].
    rewrite Hlabels; [reflexivity | set_solver]. }
  assert (Hr : ramSize info = "128Mi").
  { unfold info, build.info_of. cbn [ramSize].
    rewrite Hlabels; [reflexivity | set_solver]. }
  assert (Hn : sdkName info = "cartesi/sdk").
  { unfold info, build.info_of. cbn [sdkName].
    rewrite Hlabels; [reflexivity | set_solver]. }
  assert (Hv : sdkVersion info = "0.9.0").
  { unfold info, build.info_of. cbn [sdkVersion].
    rewrite Hlabels; [reflexivity | set_solver]. }
  split; [|done].
  rewrite (getImageInfo_found this image w imageInfo)
    by (by rewrite ?outcome_at_0).
  rewrite Harch. change ("riscv64" =? "riscv64")%string with true. cbn iota.
  fold info. apply check_info_ok; rewrite ?Hv, ?Hr, ?Hd; try done.
Qed.

Lemma getImageInfo_defaults_witness :
  let w := Sample.world Sample.app Sample.all_succeed in
  let info := build.info_of Sample.app in
  build.getImageInfo None "app" w = (Return info, spawn (ImageInspect "app") w)
  ∧ dataSize info = "10Mb"
  ∧ ramSize info = "128Mi"
  ∧ sdkName info = "cartesi/sdk"
  ∧ sdkVersion info = "0.9.0".
Proof.
  intros w.
  apply (getImageInfo_defaults None "app" w Sample.app);
    [vm_compute; reflexivity | vm_compute; reflexivity | reflexivity |].
  intros label _. reflexivity.
Defined.

(** X5.  The version floor binds the default toolset only: an
    inspected riscv64 image whose sdk name is not "cartesi/sdk" is
    accepted with any valid sdk version, one below 0.9.0 too, provided
    the RAM size is not empty and the data size parses. *)
Theorem getImageInfo_other_sdk_any_version
    (this : option Command) (image : string) (w : World)
    (imageInfo : Inspected) :
  succeeded (outcome_at w 0) = true →
  images w !! image = Some imageInfo →
  Architecture imageInfo = "riscv64" →
  let info := build.info_of imageInfo in
  sdkName info ≠ "cartesi/sdk" →
  semver.valid (sdkVersion info) = true →
  truthy (ramSize info) = true →
  bytes.parse (dataSize info) ≠ None →
  build.getImageInfo this image w = (Return info, spawn (ImageInspect image) w).
Proof.
  intros Hok Himg Harch info Hname Hvalid Hram Hbytes.
  rewrite (getImageInfo_found this image w imageInfo)
    by (by rewrite ?outcome_at_0).
  rewrite Harch. change ("riscv64" =? "riscv64")%string with true. cbn iota.
  fold info. apply check_info_ok; try done.
  destruct (sdkVersion info); [discriminate Hvalid | reflexivity].
Qed.

Lemma getImageInfo_other_sdk_any_version_witness :
  let w := Sample.world Sample2.custom_sdk Sample.all_succeed in
  semver.lt (sdkVersion (build.info_of Sample2.custom_sdk)) "0.9.0" = true
  ∧ build.getImageInfo None "app" w
    = (Return (build.info_of Sample2.custom_sdk),
       spawn (ImageInspect "app") w).
Proof.
  intros w. split; [vm_compute; reflexivity|].
  apply (getImageInfo_other_sdk_any_version None "app" w Sample2.custom_sdk);
    try (vm_compute; reflexivity); vm_compute; discriminate.
Defined.



(** * Further properties of the pipeline *)

Section MoreEffects.

Implicit Types (w : World) (c : docker_cmd) (p : path).

Lemma containers_spawn_save image p w :
  containers (spawn (ImageSave image p) w) = containers w.
Proof. unfold spawn, docker_effect. by case_match. Qed.





(** A process adds no file but the one it writes. *)
Lemma files_spawn_inv c w p :
  p ∈ files (spawn c w) → p ∈ files w ∨ output_of c = Some p.
Proof.
  unfold spawn, docker_effect.
  destruct c; repeat case_match; cbn; set_solver.
Qed.

Lemma outcome_at_ext w w' k :
  docker w' = docker w → spawned w' = spawned w →
  outcome_at w' k = outcome_at w k.
Proof. unfold outcome_at. by intros -> ->. Qed.

Lemma fs_chmod_spec p mode w :
  fs_chmod p mode w
  = if decide (p ∈ files w) then (Return (), record (Chmod p mode) w)
    else (Throw (SystemError "ENOENT" p), w).
Proof. reflexivity. Qed.

End MoreEffects.

Section MoreSdkRun.

Variables (sdkImage : string) (cmd : list string) (inputPath outputPath : path).
Implicit Types (w : World).



Lemma sdkRun_success w :
  (∀ k : nat, (k < 5)%nat → succeeded (outcome_at w k) = true) →
  let cid := stdout (outcome_at w 0) in
  build.sdkRun sdkImage cmd inputPath outputPath w
  = (Return (),
     spawn (ContainerRm cid)
       (spawn (ContainerStop cid)
          (spawn (ContainerCp cid outputPath)
             (spawn (ContainerStart cid)
                (spawn (ContainerCreate inputPath sdkImage cmd) w))))).
Proof.
  intros Hok. rewrite sdkRun_steps. cbv zeta.
  by rewrite !Hok by lia.
Qed.

Lemma sdkRun_log w :
  ∃ es : list event,
    log (build.sdkRun sdkImage cmd inputPath outputPath w).2 = log w ++ es
    ∧ Forall (λ e, is_spawn e = true) es.
Proof.
  rewrite sdkRun_steps. cbv zeta.
  repeat case_match; cbn [snd]; rewrite !log_spawn, <- ?app_assoc;
    eexists; (split; [reflexivity|]); repeat constructor.
Qed.

End MoreSdkRun.


Section MorePipeline.

Implicit Types (w : World) (p : path) (info : Info).

(** The two ways a sequence can go. *)
Lemma bind_cases {A B} (m : M A) (k : A → M B) w :
  (∃ e, m w = (Throw e, (m w).2) ∧ (m ≫= k) w = (Throw e, (m w).2))
  ∨ (∃ a, m w = (Return a, (m w).2) ∧ (m ≫= k) w = k a (m w).2).
Proof.
  unfold mbind, M_bind. destruct (m w) as [[a|e] w1]; cbn [snd]; eauto.
Qed.

Lemma createTarball_spec image p w :
  build.createTarball image p w
  = (if succeeded (outcome_at w 0) then Return ()
     else Throw (ExecaError (ImageSave image p) (exitCode (outcome_at w 0))),
     spawn (ImageSave image p) w).
Proof.
  unfold build.createTarball, mbind, M_bind, execa. rewrite outcome_at_0.
  by destruct (succeeded (outcome_at w 0)).
Qed.

Lemma cleanup_log w :
  log (build.cleanup w).2
  = log w ++ [Remove ["image.gnutar"]; Remove ["image.tar"]].
Proof. rewrite cleanup_spec. cbn. by rewrite <- app_assoc. Qed.

Lemma cleanup_containers w :
  containers (build.cleanup w).2 = containers w.
Proof. reflexivity. Qed.

Lemma cleanup_files_inv p w :
  p ∈ files (build.cleanup w).2 →
  p ∈ files w ∧ p ≠ ["image.tar"] ∧ p ≠ ["image.gnutar"].
Proof.
  intros Hp. destruct (cleanup_absent w) as [Ht Hg].
  split; [|split].
  - rewrite cleanup_spec in Hp. cbn [snd] in Hp.
    by do 2 apply fs_remove_subset in Hp.
  - by intros ->.
  - by intros ->.
Qed.



End MorePipeline.


Section RunCases.

Implicit Types (w : World) (info : Info).

(** Without a [this], a validation that passes has logged nothing and
    gives the configuration whatever the files and the log are. *)
Lemma check_info_None_Return info info' w :
  (build.check_info None info w).1 = Return info' →
  info' = info ∧ ∀ w', build.check_info None info w' = (Return info, w').
Proof.
  unfold build.check_info, build.when, mbind, M_bind, mret, M_ret, throw,
    this_warn.
  destruct (semver.valid (sdkVersion info)),
    (String.eqb (sdkName info) "cartesi/sdk"),
    (semver.lt (sdkVersion info) CARTESI_DEFAULT_SDK_VERSION),
    (truthy (sdkVersion info)), (truthy (ramSize info)),
    (bool_decide (bytes.parse (dataSize info) = None));
    cbn; try discriminate; intros [= <-]; done.
Qed.

Lemma getImageInfo_validated image info w w0 :
  (build.getImageInfo None image w).1 = Return info →
  docker w0 = docker w → spawned w0 = spawned w → images w0 = images w →
  build.getImageInfo None image w0
  = (Return info, spawn (ImageInspect image) w0)
  ∧ succeeded (outcome_at w 0) = true.
Proof.
  intros Hret Hd Hs Hi. revert Hret.
  unfold build.getImageInfo, mbind, M_bind, inspect.
  rewrite Hd, Hs, Hi, outcome_at_0.
  destruct (succeeded (outcome_at w 0)); [|discriminate].
  destruct (images w !! image) as [imageInfo|]; [|discriminate].
  unfold build.when.
  destruct (String.eqb (Architecture imageInfo) "riscv64"); cbn [negb];
    [|discriminate].
  unfold mret, M_ret. cbn beta iota. intros Hret.
  apply check_info_None_Return in Hret as [-> Hall].
  by rewrite Hall.
Qed.

(** [run] on an image that passes validation: the stages run on the
    emptied working area after the inspection, then the cleanup. *)
Lemma run_validated imageHash info w :
  (build.getImageInfo None imageHash w).1 = Return info →
  let w1 := spawn (ImageInspect imageHash) (fs_emptyDir [] w).2 in
  let r := build.stages imageHash info w1 in
  build.run imageHash w = (r.1, (build.cleanup r.2).2)
  ∧ log w1 = log w ++ [EmptyDir []; Spawn (ImageInspect imageHash)]
  ∧ files w1 = {[ [] ]}
  ∧ containers w1 = containers w
  ∧ (∀ k, outcome_at w1 k = outcome_at w (S k))
  ∧ succeeded (outcome_at w 0) = true.
Proof.
  intros Hret w1 r.
  destruct (fs_emptyDir_root w) as (_ & Hfiles & Hlog & Hc & Hd & Hs & Hi).
  destruct (getImageInfo_validated imageHash info w (fs_emptyDir [] w).2
              Hret Hd Hs Hi) as [Hinfo Hok].
  split_and!.
  - rewrite run_unfold, Hinfo. fold w1. unfold try_finally. fold r.
    destruct r as [c w2]. rewrite cleanup_spec. reflexivity.
  - unfold w1. by rewrite log_spawn, Hlog, <- app_assoc.
  - unfold w1. by rewrite files_spawn_inspect.
  - exact Hc.
  - intros k. unfold w1. rewrite outcome_at_spawn.
    by apply outcome_at_ext.
  - exact Hok.
Qed.

End RunCases.

(** X9.  The working area is emptied before the image is looked at:
    when the inspection fails, or the image store does not have the
    image, [run] fails with the error of the inspection, having spawned
    that one process, and whatever an earlier build had left, its
    snapshot included, is gone. *)
Theorem run_unknown_image_empties (imageHash : string) (w : World) :
  succeeded (outcome_at w 0) = false ∨ images w !! imageHash = None →
  let r := build.run imageHash w in
  (∃ code, r.1 = Throw (ExecaError (ImageInspect imageHash) code))
  ∧ events_since w r.2 = [EmptyDir []; Spawn (ImageInspect imageHash)]
  ∧ files r.2 = {[ [] ]}.
Proof.
  intros Hfail r. subst r. rewrite run_unfold.
  destruct (fs_emptyDir_root w) as (_ & Hfiles & Hlog & _ & Hd & Hs & Hi).
  unfold build.getImageInfo, mbind, M_bind, inspect.
  rewrite Hd, Hs, Hi, outcome_at_0.
  assert (Hev : events_since w (spawn (ImageInspect imageHash)
                                  (fs_emptyDir [] w).2)
                = [EmptyDir []; Spawn (ImageInspect imageHash)]).
  { unfold events_since.
    by rewrite log_spawn, Hlog, <- app_assoc, drop_app_length. }
  destruct (succeeded (outcome_at w 0)) eqn:Hok.
  - destruct Hfail as [Hfail | Hnone]; [discriminate|].
    rewrite Hnone. cbn [fst snd]. eauto.
  - cbn [fst snd]. eauto.
Qed.

Lemma run_unknown_image_empties_witness :
  let r := build.run "app" Sample2.no_image in
  (∃ code, r.1 = Throw (ExecaError (ImageInspect "app") code))
  ∧ events_since Sample2.no_image r.2 = [EmptyDir []; Spawn (ImageInspect "app")]
  ∧ files r.2 = {[ [] ]}.
Proof.
  apply (run_unknown_image_empties "app" Sample2.no_image).
  right. reflexivity.
Defined.

(** X10.  When saving the image fails, for an image that has passed
    validation, [run] fails with the error of the save; no container
    has been created, the two removals have been performed, and the
    working area is empty even if the failed save had begun to write
    the archive. *)
Theorem run_save_failure (imageHash : string) (info : Info) (w : World) :
  (build.getImageInfo None imageHash w).1 = Return info →
  succeeded (outcome_at w 1) = false →
  let r := build.run imageHash w in
  let save := ImageSave imageHash ["image.tar"] in
  r.1 = Throw (ExecaError save (exitCode (outcome_at w 1)))
  ∧ events_since w r.2
    = [EmptyDir []; Spawn (ImageInspect imageHash); Spawn save;
       Remove ["image.gnutar"]; Remove ["image.tar"]]
  ∧ containers r.2 = containers w
  ∧ files r.2 = {[ [] ]}.
Proof.
  intros Hval Hsave r save. subst r save.
  set (save := ImageSave imageHash ["image.tar"]).
  destruct (run_validated imageHash info w Hval)
    as (Hrun & Hlog & Hfiles & Hc & Hout & _).
  set (w1 := spawn (ImageInspect imageHash) (fs_emptyDir [] w).2) in *.
  assert (Hst : build.stages imageHash info w1
                = (Throw (ExecaError save (exitCode (outcome_at w 1))),
                   spawn save w1)).
  { unfold build.stages, getAbsolutePath. cbv zeta.
    unfold mbind at 1, M_bind at 1.
    by rewrite createTarball_spec, Hout, Hsave. }
  rewrite Hrun, Hst. cbn [fst snd]. split; [reflexivity|]. split; [|split].
  - unfold events_since.
    rewrite cleanup_log, log_spawn, Hlog, <- !app_assoc.
    by rewrite drop_app_length.
  - unfold save. by rewrite cleanup_containers, containers_spawn_save.
  - apply set_eq. intros p. rewrite elem_of_singleton. split.
    + intros Hp. apply cleanup_files_inv in Hp as (Hp & Htar & _).
      apply files_spawn_inv in Hp as [Hp | Hp].
      * rewrite Hfiles in Hp. by apply elem_of_singleton in Hp.
      * injection Hp as <-. done.
    + intros ->. apply cleanup_keeps.
      * intros [k Hk]. discriminate Hk.
      * intros [k Hk]. discriminate Hk.
      * apply files_spawn_mono. rewrite Hfiles. by apply elem_of_singleton.
Qed.

Lemma run_save_failure_witness :
  let w := Sample.world Sample.app (Sample.fails_at 1 1) in
  let r := build.run "app" w in
  let save := ImageSave "app" ["image.tar"] in
  r.1 = Throw (ExecaError save (exitCode (outcome_at w 1)))
  ∧ events_since w r.2
    = [EmptyDir []; Spawn (ImageInspect "app"); Spawn save;
       Remove ["image.gnutar"]; Remove ["image.tar"]]
  ∧ containers r.2 = containers w
  ∧ files r.2 = {[ [] ]}.
Proof.
  intros w.
  apply (run_save_failure "app" (build.info_of Sample.app) w);
    vm_compute; reflexivity.
Defined.

Section RunTraces.

Implicit Types (w : World) (info : Info).

Lemma bind_Return {A B} (m : M A) (k : A → M B) w a w' :
  m w = (Return a, w') → (m ≫= k) w = k a w'.
Proof. unfold mbind, M_bind. by intros ->. Qed.

(** One [sdkRun] whose five processes succeed. *)
Lemma sdkRun_succeeds sdkImage cmd inputPath outputPath w :
  (∀ k : nat, (k < 5)%nat → succeeded (outcome_at w k) = true) →
  ∃ w',
    build.sdkRun sdkImage cmd inputPath outputPath w = (Return (), w')
    ∧ log w'
      = log w ++ sdkRun_events sdkImage cmd inputPath outputPath
                   (stdout (outcome_at w 0))
    ∧ (∀ k, outcome_at w' k = outcome_at w (5 + k))
    ∧ outputPath ∈ files w'
    ∧ (∀ p, p ∈ files w → p ∈ files w').
Proof.
  intros Hok. eexists. split; [by apply sdkRun_success|]. split_and!.
  - unfold sdkRun_events. by rewrite !log_spawn, <- !app_assoc.
  - intros k. by rewrite !outcome_at_spawn.
  - do 2 apply files_spawn_mono. apply files_spawn_cp.
    rewrite !outcome_at_spawn. apply Hok. lia.
  - intros p Hp. by do 5 apply files_spawn_mono.
Qed.


(** The events of the stages: spawned processes, then the change of
    mode when, and only when, they return. *)
Lemma stages_log appImage info w :
  ∃ sp : list event,
    Forall (λ e, is_spawn e = true) sp
    ∧ log (build.stages appImage info w).2
      = log w ++ sp
        ++ match (build.stages appImage info w).1 with
           | Return _ => [Chmod ["image"] mode_0o755]
           | Throw _ => []
           end.
Proof.
  unfold build.stages, getAbsolutePath. cbv zeta.
  set (sdkImage := sdkName info +:+ ":" +:+ sdkVersion info).
  set (s1 := build.sdkRun sdkImage createRootfsTarCommand
               ["image.tar"] ["image.gnutar"]).
  set (s2 := build.sdkRun sdkImage
               (createExt2Command (build.bytes_number (dataSize info)))
               ["image.gnutar"] ["image.ext2"]).
  set (s3 := build.sdkRun sdkImage (createMachineSnapshotCommand info)
               ["image.ext2"] ["image"]).
  set (t := build.createTarball appImage ["image.tar"]).
  assert (Ht : ∀ w0, log (t w0).2
                     = log w0 ++ [Spawn (ImageSave appImage ["image.tar"])]).
  { intros w0. unfold t. rewrite createTarball_spec. apply log_spawn. }
  destruct (bind_cases t
    (λ _, s1;; s2;; s3;; fs_chmod ["image"] mode_0o755) w)
    as [(e & _ & ->) | ([] & _ & ->)]; cbn [fst snd].
  { exists [Spawn (ImageSave appImage ["image.tar"])].
    split; [by repeat constructor|].
    by rewrite Ht, app_nil_r. }
  destruct (sdkRun_log sdkImage createRootfsTarCommand
              ["image.tar"] ["image.gnutar"] (t w).2) as (e1 & Hl1 & Hs1).
  fold s1 in Hl1.
  destruct (bind_cases s1 (λ _, s2;; s3;; fs_chmod ["image"] mode_0o755)
              (t w).2)
    as [(e & _ & ->) | ([] & _ & ->)]; cbn [fst snd].
  { exists (Spawn (ImageSave appImage ["image.tar"]) :: e1).
    split; [by constructor|].
    by rewrite Hl1, Ht, app_nil_r, <- app_assoc. }
  destruct (sdkRun_log sdkImage
              (createExt2Command (build.bytes_number (dataSize info)))
              ["image.gnutar"] ["image.ext2"] (s1 (t w).2).2)
    as (e2 & Hl2 & Hs2).
  fold s2 in Hl2.
  destruct (bind_cases s2 (λ _, s3;; fs_chmod ["image"] mode_0o755)
              (s1 (t w).2).2)
    as [(e & _ & ->) | ([] & _ & ->)]; cbn [fst snd].
  { exists (Spawn (ImageSave appImage ["image.tar"]) :: e1 ++ e2).
    split; [constructor; [done | by apply Forall_app]|].
    by rewrite Hl2, Hl1, Ht, app_nil_r, <- !app_assoc. }
  destruct (sdkRun_log sdkImage (createMachineSnapshotCommand info)
              ["image.ext2"] ["image"] (s2 (s1 (t w).2).2).2)
    as (e3 & Hl3 & Hs3).
  fold s3 in Hl3.
  exists (Spawn (ImageSave appImage ["image.tar"]) :: e1 ++ e2 ++ e3).
  split; [constructor; [done|]; apply Forall_app; split; [done|];
          by apply Forall_app|].
  destruct (bind_cases s3 (λ _, fs_chmod ["image"] mode_0o755)
              (s2 (s1 (t w).2).2).2)
    as [(e & _ & ->) | ([] & _ & ->)]; cbn [fst snd].
  { by rewrite Hl3, Hl2, Hl1, Ht, app_nil_r, <- !app_assoc. }
  rewrite fs_chmod_spec. destruct (decide _) as [Hin|Hin]; cbn [fst snd].
  - cbn [log record]. rewrite Hl3, Hl2, Hl1, Ht. cbn [app].
    by rewrite <- !app_assoc.
  - by rewrite Hl3, Hl2, Hl1, Ht, app_nil_r, <- !app_assoc.
Qed.


End RunTraces.
(** X11.  The stages chain: for an image that passes validation, when
    each of the sixteen processes that follow the inspection exits
    with 0, [run] returns and has done exactly this, in this order:
    empty the working area, inspect, save the image to image.tar, then
    three one-shot containers of the toolset image [name:version], the
    output of each being the input of the next (image.tar to
    image.gnutar to image.ext2 to image), then the change of mode of
    the snapshot, then the two removals. *)
Theorem run_success_trace (imageHash : string) (info : Info) (w : World) :
  (build.getImageInfo None imageHash w).1 = Return info →
  (∀ k : nat, (1 ≤ k ≤ 16)%nat → succeeded (outcome_at w k) = true) →
  let sdkImage := sdkName info +:+ ":" +:+ sdkVersion info in
  let r := build.run imageHash w in
  r.1 = Return ()
  ∧ events_since w r.2
    = [ EmptyDir []; Spawn (ImageInspect imageHash);
        Spawn (ImageSave imageHash ["image.tar"]) ]
      ++ sdkRun_events sdkImage createRootfsTarCommand
           ["image.tar"] ["image.gnutar"] (stdout (outcome_at w 2))
      ++ sdkRun_events sdkImage
           (createExt2Command (build.bytes_number (dataSize info)))
           ["image.gnutar"] ["image.ext2"] (stdout (outcome_at w 7))
      ++ sdkRun_events sdkImage (createMachineSnapshotCommand info)
           ["image.ext2"] ["image"] (stdout (outcome_at w 12))
      ++ [ Chmod ["image"] mode_0o755;
           Remove ["image.gnutar"]; Remove ["image.tar"] ].
Proof.
  intros Hval Hok sdkImage r. subst r.
  destruct (run_validated imageHash info w Hval)
    as (Hrun & Hlog & _ & _ & Hout & _).
  set (w1 := spawn (ImageInspect imageHash) (fs_emptyDir [] w).2) in *.
  set (w2 := spawn (ImageSave imageHash ["image.tar"]) w1).
  assert (Hout2 : ∀ k, outcome_at w2 k = outcome_at w (2 + k)).
  { intros k. unfold w2. by rewrite outcome_at_spawn, Hout. }
  destruct (sdkRun_succeeds sdkImage createRootfsTarCommand
              ["image.tar"] ["image.gnutar"] w2)
    as (w3 & Hs1 & Hl3 & Hout3 & _ & _).
  { intros k Hk. rewrite Hout2. apply Hok. lia. }
  destruct (sdkRun_succeeds sdkImage
              (createExt2Command (build.bytes_number (dataSize info)))
              ["image.gnutar"] ["image.ext2"] w3)
    as (w4 & Hs2 & Hl4 & Hout4 & _ & _).
  { intros k Hk. rewrite Hout3, Hout2. apply Hok. lia. }
  destruct (sdkRun_succeeds sdkImage (createMachineSnapshotCommand info)
              ["image.ext2"] ["image"] w4)
    as (w5 & Hs3 & Hl5 & _ & Hsnap & _).
  { intros k Hk. rewrite Hout4, Hout3, Hout2. apply Hok. lia. }
  assert (Hst : build.stages imageHash info w1
                = (Return (), record (Chmod ["image"] mode_0o755) w5)).
  { unfold build.stages, getAbsolutePath. cbv zeta. fold sdkImage.
    rewrite (bind_Return _ _ w1 () w2).
    2:{ rewrite createTarball_spec, Hout, Hok by lia. reflexivity. }
    rewrite (bind_Return _ _ w2 () w3 Hs1).
    rewrite (bind_Return _ _ w3 () w4 Hs2).
    rewrite (bind_Return _ _ w4 () w5 Hs3).
    rewrite fs_chmod_spec. by rewrite decide_True. }
  rewrite Hrun, Hst. cbn [fst snd]. split; [reflexivity|].
  unfold events_since. rewrite cleanup_log. cbn [log record].
  rewrite Hl5, Hl4, Hl3, !Hout4, !Hout3, !Hout2. unfold w2.
  rewrite log_spawn, Hlog.
  rewrite <- !app_assoc. rewrite drop_app_length. reflexivity.
Qed.

Lemma run_success_trace_witness :
  let w := Sample.world Sample.app Sample.all_succeed in
  let info := build.info_of Sample.app in
  let sdkImage := sdkName info +:+ ":" +:+ sdkVersion info in
  let r := build.run "app" w in
  r.1 = Return ()
  ∧ events_since w r.2
    = [ EmptyDir []; Spawn (ImageInspect "app");
        Spawn (ImageSave "app" ["image.tar"]) ]
      ++ sdkRun_events sdkImage createRootfsTarCommand
           ["image.tar"] ["image.gnutar"] (stdout (outcome_at w 2))
      ++ sdkRun_events sdkImage
           (createExt2Command (build.bytes_number (dataSize info)))
           ["image.gnutar"] ["image.ext2"] (stdout (outcome_at w 7))
      ++ sdkRun_events sdkImage (createMachineSnapshotCommand info)
           ["image.ext2"] ["image"] (stdout (outcome_at w 12))
      ++ [ Chmod ["image"] mode_0o755;
           Remove ["image.gnutar"]; Remove ["image.tar"] ].
Proof.
  intros w info.
  apply (run_success_trace "app" info w); [vm_compute; reflexivity|].
  intros k _. reflexivity.
Defined.

(** X12.  The snapshot is marked executable exactly when the run
    succeeds: the change of mode of [image] is among the things a run
    has done if and only if the run returns.  A run that fails, at
    whatever point, has not marked anything executable. *)
Theorem run_chmod_iff_success (imageHash : string) (w : World) :
  let r := build.run imageHash w in
  Chmod ["image"] mode_0o755 ∈ events_since w r.2 ↔ r.1 = Return ().
Proof.
  cbv zeta. rewrite run_unfold.
  destruct (fs_emptyDir_root w) as (_ & _ & Hlog0 & _).
  pose proof (getImageInfo_None_log imageHash (fs_emptyDir [] w).2) as Hlog1.
  rewrite Hlog0, <- app_assoc in Hlog1. cbn [app] in Hlog1.
  destruct (build.getImageInfo None imageHash (fs_emptyDir [] w).2)
    as [[info|e] w1]; cbn [snd] in Hlog1.
  - destruct (stages_log imageHash info w1) as (sp & Hsp & Hlog2).
    unfold try_finally.
    pose proof (cleanup_log (build.stages imageHash info w1).2) as Hlog3.
    destruct (build.stages imageHash info w1) as [c w2].
    cbn [fst snd] in *. rewrite cleanup_spec in *. cbn [fst snd] in *.
    unfold events_since. rewrite Hlog3, Hlog2, Hlog1.
    rewrite <- !app_assoc, drop_app_length.
    cbn [app]. rewrite !elem_of_cons, !elem_of_app, !elem_of_cons.
    split.
    + intros [H|[H|[H|[H|H]]]]; try discriminate H.
      * rewrite Forall_forall in Hsp. apply Hsp in H. discriminate H.
      * destruct c as [[]|e]; [reflexivity|]. by apply elem_of_nil in H.
      * destruct H as [H|[H|H]]; try discriminate H.
        by apply elem_of_nil in H.
    + intros ->. right. right. right. left. by left.
  - cbn [fst snd]. unfold events_since.
    rewrite Hlog1, drop_app_length. split; [|discriminate].
    rewrite !elem_of_cons. intros [H|[H|H]]; try discriminate H.
    by apply elem_of_nil in H.
Qed.


(** * Further properties of the run command and of the entry point *)

Section MoreRun.

Implicit Types (w : World) (s : string).

Lemma length_substring_0 (n : nat) s :
  (n ≤ String.length s)%nat → String.length (String.substring 0 n s) = n.
Proof.
  revert s. induction n as [|n IH]; intros s Hn.
  - by destruct s.
  - destruct s as [|c s]; cbn in Hn; [lia|].
    cbn. rewrite IH; [reflexivity | lia].
Qed.

Lemma isHash_inv s :
  Run.isHash ("0x" +:+ s) = true →
  String.length s = 64%nat ∧ Text.all Run.is_hex_digit s = true.
Proof.
  change ("0x" +:+ s) with (String "0" (String "x" s)).
  unfold Run.isHash. intros H.
  apply andb_true_iff in H as [Hall Hlen].
  apply Nat.eqb_eq in Hlen. by split.
Qed.

End MoreRun.

(** X14.  [getMachineHash] reads and changes nothing.  It finds a hash
    only when the file image/hash exists and holds exactly 32 bytes:
    the hash is then "0x" and the 64 hexadecimal digits of the content,
    and the project name that [run] takes from it is the first eight
    of these digits.  Without the file there is no hash. *)
Theorem getMachineHash_result (w : World) :
  let r := Run.getMachineHash w in
  r.2 = w
  ∧ (["image"; "hash"] ∉ files w → r.1 = Return None)
  ∧ (∀ hash : string, r.1 = Return (Some hash) →
     ["image"; "hash"] ∈ files w
     ∧ ∃ content : string,
         hex w !! ["image"; "hash"] ?? "" = content
         ∧ hash = "0x" +:+ content
         ∧ String.length content = 64%nat
         ∧ Text.all Run.is_hex_digit content = true
         ∧ String.substring 2 8 hash = String.substring 0 8 content
         ∧ String.length (String.substring 2 8 hash) = 8%nat).
Proof.
  unfold Run.getMachineHash, getAbsolutePath. cbv zeta.
  destruct (decide _) as [Hin|Hout].
  - destruct (Run.isHash _) eqn:Hhash; cbn [fst snd].
    + split; [reflexivity|]. split; [intros Hout; by destruct Hout|].
      intros hash [= <-]. split; [exact Hin|]. eexists.
      split; [reflexivity|].
      apply isHash_inv in Hhash as [Hlen Hall].
      split; [reflexivity|].
      split; [exact Hlen|]. split; [exact Hall|].
      split; [reflexivity|].
      change (String.substring 2 8 ("0x" +:+ ?c))
        with (String.substring 0 8 c).
      apply length_substring_0. lia.
    + split; [reflexivity|]. split; [reflexivity|]. discriminate.
  - cbn [fst snd]. split; [reflexivity|]. split; [reflexivity|]. discriminate.
Qed.

(** X15.  Without a snapshot hash [run] starts nothing: it spawns no
    process and leaves the world as it was.  It was meant to fail
    with "Cartesi machine snapshot not found, run '<bin> build'", and
    does so when it has a [this]; called as the entry point calls it,
    without one, building the message throws a TypeError instead. *)
Theorem run_without_snapshot
    (this : option Command) (verbose : option bool)
    (blockTime epoch_length : option Z) (listen_port : option string)
    (w : World) :
  (Run.getMachineHash w).1 = Return None →
  Run.run this verbose blockTime epoch_length listen_port w
  = (Throw
       match this with
       | Some c =>
           Error ("Cartesi machine snapshot not found, run '"
                  +:+ config_bin c +:+ " build'")
       | None =>
           TypeError "Cannot read properties of undefined (reading 'config')"
       end,
     w).
Proof.
  intros Hnone. unfold Run.run, mbind at 1, M_bind at 1.
  assert (Hw : Run.getMachineHash w = (Return None, w)).
  { unfold Run.getMachineHash in *. repeat case_match; try discriminate;
      reflexivity. }
  rewrite Hw. by destruct this.
Qed.

Lemma run_without_snapshot_witness :
  let w := Sample.world Sample.app Sample.all_succeed in
  Run.run None None None None None w
  = (Throw (TypeError "Cannot read properties of undefined (reading 'config')"),
     w).
Proof.
  intros w.
  apply (run_without_snapshot None None None None None w).
  reflexivity.
Defined.



(** X17.  The entry point starts a build exactly when it is given
    "build" and one more argument, the image: with "build" and any
    other number of arguments it prints the usage of build and exits
    with status 1, and nothing but "build" starts a build. *)
Theorem main_build
    (number : Type) (Number_or_undefined : option string → option number)
    (args : list string) :
  let main := index.main number Number_or_undefined in
  (∀ imageHash : option string,
     main args = index.CallBuild imageHash
     ↔ ∃ h, args = ["build"; h] ∧ imageHash = Some h)
  ∧ (args !! 0%nat = Some "build" → length args ≠ 2%nat →
     main args = index.Exit index.usage_build 1).
Proof.
  cbv zeta. split.
  - intros imageHash. unfold index.main. split.
    + repeat case_decide; try discriminate. intros [= <-].
      destruct args as [|a [|h [|x rest]]]; cbn in *; try lia.
      exists h. by simplify_eq.
    + intros (h & -> & ->). reflexivity.
  - intros Hbuild Hlen. unfold index.main.
    by rewrite decide_True, decide_True.
Qed.

(** X18.  The verbose option can only be switched on: after "run",
    any first argument but the empty text and "help" makes the run
    verbose, "false" and "0" included; the empty text and no argument
    leave it off; "help" prints the usage and exits with status 1
    without running.  The port is passed as it is written, an empty
    one as none. *)
Theorem main_run
    (number : Type) (Number_or_undefined : option string → option number)
    (rest : list string) :
  let main := index.main number Number_or_undefined in
  let run verbose :=
    index.CallRun verbose (Number_or_undefined (rest !! 1%nat))
      (Number_or_undefined (rest !! 2%nat))
      (index.or_undefined (rest !! 3%nat)) in
  (∀ first, rest !! 0%nat = Some first → first ≠ "" → first ≠ "help" →
     main ("run" :: rest) = run (Some true))
  ∧ (rest !! 0%nat = None ∨ rest !! 0%nat = Some "" →
     main ("run" :: rest) = run None)
  ∧ (rest !! 0%nat = Some "help" →
     main ("run" :: rest) = index.Exit index.usage_run 1)
  ∧ (∀ port, rest !! 3%nat = Some port → port ≠ "" →
     index.or_undefined (rest !! 3%nat) = Some port).
Proof.
  cbv zeta. unfold index.main.
  change (("run" :: rest) !! 0%nat) with (Some "run").
  change (("run" :: rest) !! 1%nat) with (rest !! 0%nat).
  change (("run" :: rest) !! 2%nat) with (rest !! 1%nat).
  change (("run" :: rest) !! 3%nat) with (rest !! 2%nat).
  change (("run" :: rest) !! 4%nat) with (rest !! 3%nat).
  rewrite decide_False by discriminate. rewrite decide_True by done.
  split_and!.
  - intros first -> Hne Hhelp.
    rewrite decide_False by congruence.
    unfold index.verbose_of. cbn. by destruct first.
  - intros [-> | ->]; by rewrite decide_False.
  - intros ->. by rewrite decide_True.
  - intros port -> Hne. unfold index.or_undefined. cbn. by destruct port.
Qed.
